(** * Quest bot: the quest lifecycle, the statistics counters and the JSON store

    A shallow embedding of [bot/models.py], [bot/permissions.py],
    [bot/json_database.py], [bot/quest_manager.py] and [bot/user_stats.py],
    followed by the properties of the lifecycle that the specification states.

    Conventions of the embedding.
    - A [datetime] is the number of microseconds since the epoch, a [Z];
      a [timedelta] is a difference of two of them.
    - [datetime.now()] and [uuid.uuid4()] read the outside world.  The world
      carries the readings still to come ([clock], [uuid_pool]) together with
      how many were consumed, and every method is a state transformer
      [M A := World -> A * World], so that two readings made by one call are two
      distinct values.
    - [main.py] wires [JSONDatabase] into [QuestManager] and
      [UserStatsManager]; the in-memory dictionaries of [JSONDatabase] serve
      every read, and [_save_data] only mirrors them to files.  The model is
      those dictionaries; writing the mirror is the identity on them, and a
      failure of the disk or of git is outside the model.  The records of the
      dictionaries are those the [save_*] methods write. *)

From Stdlib Require Import ZArith Ascii String.
From stdpp Require Import base gmap strings list pretty sorting.

(** ** bot/models.py *)

Module QuestRank.
Definition EASY : string := "easy".
Definition NORMAL : string := "normal".
Definition MEDIUM : string := "medium".
Definition HARD : string := "hard".
Definition IMPOSSIBLE : string := "impossible".
End QuestRank.

Module QuestCategory.
Definition HUNTING : string := "hunting".
Definition GATHERING : string := "gathering".
Definition COLLECTING : string := "collecting".
Definition CRAFTING : string := "crafting".
Definition EXPLORATION : string := "exploration".
Definition COMBAT : string := "combat".
Definition SOCIAL : string := "social".
Definition BUILDING : string := "building".
Definition TRADING : string := "trading".
Definition PUZZLE : string := "puzzle".
Definition SURVIVAL : string := "survival".
Definition OTHER : string := "other".
End QuestCategory.

Module QuestStatus.
Definition AVAILABLE : string := "available".
Definition ACCEPTED : string := "accepted".
Definition COMPLETED : string := "completed".
Definition APPROVED : string := "approved".
Definition REJECTED : string := "rejected".
Definition CANCELLED : string := "cancelled".
End QuestStatus.

(** An instant: microseconds since the epoch. *)
Abbreviation datetime := Z (only parsing).

Module Quest.
Record t : Type := mk {
  quest_id : string;
  title : string;
  description : string;
  creator_id : Z;
  guild_id : Z;
  requirements : string;
  reward : string;
  rank : string;
  category : string;
  status : string;
  created_at : datetime;
  required_role_ids : list Z
}.
End Quest.

Module QuestProgress.
(** [accepted_at] is never [None] on an object: [__post_init__] replaces a
    missing value by the current time, and [save_quest_progress] writes what
    the object holds. *)
Record t : Type := mk {
  quest_id : string;
  user_id : Z;
  guild_id : Z;
  status : string;
  accepted_at : datetime;
  completed_at : option datetime;
  proof_text : string;
  proof_image_urls : list string;
  approval_status : string;
  accepted_channel_id : option Z
}.

Definition set_completed (p : t) (now : datetime) (text : string)
    (urls : list string) (tag : string) (st : string) : t :=
  {| quest_id := quest_id p; user_id := user_id p; guild_id := guild_id p;
     status := st; accepted_at := accepted_at p; completed_at := Some now;
     proof_text := text; proof_image_urls := urls; approval_status := tag;
     accepted_channel_id := accepted_channel_id p |}.

Definition set_decision (p : t) (st tag : string) : t :=
  {| quest_id := quest_id p; user_id := user_id p; guild_id := guild_id p;
     status := st; accepted_at := accepted_at p;
     completed_at := completed_at p; proof_text := proof_text p;
     proof_image_urls := proof_image_urls p; approval_status := tag;
     accepted_channel_id := accepted_channel_id p |}.
End QuestProgress.

Module UserStats.
Record t : Type := mk {
  user_id : Z;
  guild_id : Z;
  quests_completed : Z;
  quests_accepted : Z;
  quests_rejected : Z;
  first_quest_date : datetime;
  last_quest_date : datetime
}.
End UserStats.

Module ChannelConfigModel.
(** The dataclass [ChannelConfig] of [bot/models.py] (imported under this
    name by [bot/config.py]). *)
Record t : Type := mk {
  guild_id : Z;
  quest_list_channel : option Z;
  quest_accept_channel : option Z;
  quest_submit_channel : option Z;
  quest_approval_channel : option Z;
  notification_channel : option Z
}.
End ChannelConfigModel.

(** ** Python values the code relies on *)

(** Truth value of a list, and of a list argument that defaults to [None]. *)
Definition truthy {A} (l : list A) : bool :=
  match l with [] => false | _ :: _ => true end.

Definition truthy_opt {A} (o : option (list A)) : bool :=
  match o with None => false | Some l => truthy l end.

(** [x or []]. *)
Definition or_empty {A} (o : option (list A)) : list A :=
  match o with
  | None => []
  | Some l => if truthy l then l else []
  end.

(** [timedelta(hours=h)]. *)
Definition timedelta_hours (h : Z) : Z := (h * 3600 * 1000000)%Z.

(** [int(td.total_seconds() / 3600)]: the quotient truncated towards zero.
    The source divides floats; for [|td|] below a century the two roundings
    are some 1e-16 relative, while a value that is not a whole number of hours
    is at least a microsecond (some 1e-10 relative) away from one, and a whole
    number of hours is computed exactly, so the truncation is the one of the
    exact quotient. *)
Definition int_total_hours (td : Z) : Z := (td ÷ 3600000000)%Z.

(** A dictionary whose iteration order is observed: the pairs in insertion
    order.  Assigning to a present key keeps its place, assigning to a new
    key appends. *)
Section pydict.
Context {V : Type}.

Fixpoint dict_get (k : string) (d : list (string * V)) : option V :=
  match d with
  | [] => None
  | (k', v) :: d' => if String.eqb k k' then Some v else dict_get k d'
  end.

Fixpoint dict_set (k : string) (v : V) (d : list (string * V))
    : list (string * V) :=
  match d with
  | [] => [(k, v)]
  | (k', v') :: d' =>
      if String.eqb k k' then (k, v) :: d' else (k', v') :: dict_set k v d'
  end.

Definition dict_values (d : list (string * V)) : list V := d.*2.
End pydict.

(** [l[:n]] for a Python integer [n]: a negative bound counts from the end. *)
Definition slice_to {A} (l : list A) (n : Z) : list A :=
  if (0 <=? n)%Z then take (Z.to_nat n) l
  else take (Z.to_nat (Z.of_nat (length l) + n)) l.

(** [l.sort(key=key, reverse=True)] for a key ordered by [lt]: a stable sort
    into descending key order, elements of equal key keeping their order. *)
Section sort_reverse.
Context {A K : Type} (key : A -> K) (ltb : K -> K -> bool).

Fixpoint insert_desc (x : A) (l : list A) : list A :=
  match l with
  | [] => [x]
  | y :: l' =>
      if ltb (key x) (key y) then y :: insert_desc x l' else x :: y :: l'
  end.

Definition sort_reverse (l : list A) : list A := foldr insert_desc [] l.

(** [x] may stand before [y]: the key of [x] is not the smaller one. *)
Definition not_below (x y : A) : Prop := ltb (key x) (key y) = false.
End sort_reverse.

(** Order of the tuples [(a, b)] of integers. *)
Definition pair_ltb (x y : Z * Z) : bool :=
  ((x.1 <? y.1) || ((x.1 =? y.1) && (x.2 <? y.2)))%Z.

(** ** The world and its state transformers *)

Module json_database.
(** The three dictionaries of [JSONDatabase] that the lifecycle uses.
    [quests] and [quest_progress] are read by key and by scans whose result
    does not depend on the order; [user_stats] is scanned in insertion order
    by the leaderboard. *)
Record JSONDatabase : Type := mk {
  quests : gmap string Quest.t;
  quest_progress : gmap string QuestProgress.t;
  user_stats : list (string * UserStats.t)
}.

(** [JSONDatabase.__init__]. *)
Definition init : JSONDatabase :=
  {| quests := ∅; quest_progress := ∅; user_stats := [] |}.
End json_database.
Import json_database.

Record World : Type := mkWorld {
  database : JSONDatabase;
  clock : nat -> datetime;
  ticks : nat;
  uuid_pool : nat -> string;
  draws : nat
}.

Definition M (A : Type) : Type := World -> A * World.

#[global] Instance M_ret : MRet M := fun A a w => (a, w).
#[global] Instance M_bind : MBind M :=
  fun A B f m w => let '(a, w') := m w in f a w'.

(** [datetime.now()]. *)
Definition datetime_now : M datetime := fun w =>
  (clock w (ticks w),
   {| database := database w; clock := clock w; ticks := S (ticks w);
      uuid_pool := uuid_pool w; draws := draws w |}).

(** [str(uuid.uuid4())]. *)
Definition uuid4_str : M string := fun w =>
  (uuid_pool w (draws w),
   {| database := database w; clock := clock w; ticks := ticks w;
      uuid_pool := uuid_pool w; draws := S (draws w) |}).

Definition get_db : M JSONDatabase := fun w => (database w, w).

Definition put_db (db : JSONDatabase) : M unit := fun w =>
  (tt, {| database := db; clock := clock w; ticks := ticks w;
          uuid_pool := uuid_pool w; draws := draws w |}).

(** ** bot/json_database.py *)

(** The key [f"{a}_{b}"] of a user and a quest identifier. *)
Definition progress_key (user_id : Z) (quest_id : string) : string :=
  pretty user_id +:+ "_" +:+ quest_id.

(** The key [f"{a}_{b}"] of a user and a guild. *)
Definition stats_key (user_id guild_id : Z) : string :=
  pretty user_id +:+ "_" +:+ pretty guild_id.

Module JSONDatabase.
Definition save_quest (quest : Quest.t) : M unit :=
  db ← get_db;
  put_db {| quests := <[Quest.quest_id quest := quest]> (quests db);
            quest_progress := quest_progress db;
            user_stats := user_stats db |}.

Definition get_quest (quest_id : string) : M (option Quest.t) :=
  db ← get_db; mret (quests db !! quest_id).

(** The keys collected by the first loop of [delete_quest]. *)
Definition to_remove (quest_id : string)
    (progress : gmap string QuestProgress.t) : list string :=
  (filter (fun kp => QuestProgress.quest_id kp.2 = quest_id)
          (map_to_list progress)).*1.

Definition delete_quest (quest_id : string) : M unit :=
  db ← get_db;
  if bool_decide (is_Some (quests db !! quest_id)) then
    put_db {| quests := delete quest_id (quests db);
              quest_progress :=
                foldr delete (quest_progress db)
                      (to_remove quest_id (quest_progress db));
              user_stats := user_stats db |}
  else mret tt.

Definition save_quest_progress (progress : QuestProgress.t) : M unit :=
  db ← get_db;
  let key := progress_key (QuestProgress.user_id progress)
                          (QuestProgress.quest_id progress) in
  put_db {| quests := quests db;
            quest_progress := <[key := progress]> (quest_progress db);
            user_stats := user_stats db |}.

Definition get_user_quest_progress (user_id : Z) (quest_id : string)
    : M (option QuestProgress.t) :=
  db ← get_db; mret (quest_progress db !! progress_key user_id quest_id).

Definition save_user_stats (stats : UserStats.t) : M unit :=
  db ← get_db;
  let key := stats_key (UserStats.user_id stats) (UserStats.guild_id stats) in
  put_db {| quests := quests db;
            quest_progress := quest_progress db;
            user_stats := dict_set key stats (user_stats db) |}.

Definition get_user_stats (user_id guild_id : Z) : M (option UserStats.t) :=
  db ← get_db; mret (dict_get (stats_key user_id guild_id) (user_stats db)).

(** The key of the leaderboard sort,
    [lambda x: (x.quests_completed, x.quests_accepted)]. *)
Definition leaderboard_key (x : UserStats.t) : Z * Z :=
  (UserStats.quests_completed x, UserStats.quests_accepted x).

Definition get_guild_leaderboard (guild_id : Z) (limit : Z)
    : M (list UserStats.t) :=
  db ← get_db;
  let stats :=
    filter (fun s => UserStats.guild_id s = guild_id)
           (dict_values (user_stats db)) in
  mret (slice_to (sort_reverse leaderboard_key pair_ltb stats) limit).
(** The scans below read a dictionary in its order of insertion, which the
    maps of this model do not keep: their results are lists whose order,
    where no sort fixes it, is not the one of the source, and the properties
    proved of them do not depend on it. *)

Definition get_guild_quests (guild_id : Z) (status : option string)
    : M (list Quest.t) :=
  db ← get_db;
  mret (filter (fun q => Quest.guild_id q = guild_id
                         ∧ (status = None ∨ Some (Quest.status q) = status))
               (map_to_list (quests db)).*2).

Definition get_user_quests (user_id : Z) (guild_id : option Z)
    : M (list QuestProgress.t) :=
  db ← get_db;
  let progresses :=
    filter (fun p => QuestProgress.user_id p = user_id
                     ∧ (guild_id = None
                        ∨ Some (QuestProgress.guild_id p) = guild_id))
           (map_to_list (quest_progress db)).*2 in
  mret (sort_reverse QuestProgress.accepted_at Z.ltb progresses).

(** One row of [get_pending_approvals]:
    [(quest_id, user_id, proof_text, proof_image_urls, quest_title)]. *)
Definition pending_row (db : JSONDatabase) (creator_id guild_id : Z)
    (p : QuestProgress.t)
    : option (string * Z * string * list string * string) :=
  if bool_decide (QuestProgress.guild_id p = guild_id
                  ∧ QuestProgress.status p = "completed")
  then
    match quests db !! QuestProgress.quest_id p with
    | Some q =>
        if bool_decide (Quest.creator_id q = creator_id)
        then Some (QuestProgress.quest_id p, QuestProgress.user_id p,
                   QuestProgress.proof_text p,
                   QuestProgress.proof_image_urls p, Quest.title q)
        else None
    | None => None
    end
  else None.

Definition get_pending_approvals (creator_id guild_id : Z)
    : M (list (string * Z * string * list string * string)) :=
  db ← get_db;
  mret (omap (pending_row db creator_id guild_id)
             (map_to_list (quest_progress db)).*2).

(** The dictionary [get_total_guild_stats] returns. *)
Record GuildTotals : Type := mkTotals {
  total_completed : Z;
  total_accepted : Z;
  active_users : Z
}.

Definition get_total_guild_stats (guild_id : Z) : M GuildTotals :=
  db ← get_db;
  mret (foldl (fun acc data =>
                 if bool_decide (UserStats.guild_id data = guild_id)
                 then {| total_completed :=
                           total_completed acc + UserStats.quests_completed data;
                         total_accepted :=
                           total_accepted acc + UserStats.quests_accepted data;
                         active_users := active_users acc + 1 |}
                 else acc)
              {| total_completed := 0; total_accepted := 0;
                 active_users := 0 |}
              (dict_values (user_stats db))).

(** [save_channel_config] and [get_channel_config] touch the dictionary
    [self.channel_config] only; they are given it and return it. *)
Definition save_channel_config (config : ChannelConfigModel.t)
    (channel_config : gmap string ChannelConfigModel.t)
    : gmap string ChannelConfigModel.t :=
  <[pretty (ChannelConfigModel.guild_id config) := config]> channel_config.

Definition get_channel_config (guild_id : Z)
    (channel_config : gmap string ChannelConfigModel.t)
    : option ChannelConfigModel.t :=
  channel_config !! pretty guild_id.
End JSONDatabase.

(** ** bot/config.py *)

Module ChannelConfig.
Definition set_guild_channels (guild_id : Z)
    (quest_list_channel quest_accept_channel quest_submit_channel
       quest_approval_channel notification_channel : option Z)
    (channel_config : gmap string ChannelConfigModel.t)
    : gmap string ChannelConfigModel.t :=
  JSONDatabase.save_channel_config
    {| ChannelConfigModel.guild_id := guild_id;
       ChannelConfigModel.quest_list_channel := quest_list_channel;
       ChannelConfigModel.quest_accept_channel := quest_accept_channel;
       ChannelConfigModel.quest_submit_channel := quest_submit_channel;
       ChannelConfigModel.quest_approval_channel := quest_approval_channel;
       ChannelConfigModel.notification_channel := notification_channel |}
    channel_config.

(** The dictionary of the five channels, or the empty dictionary. *)
Definition get_guild_config (guild_id : Z)
    (channel_config : gmap string ChannelConfigModel.t)
    : list (string * option Z) :=
  match JSONDatabase.get_channel_config guild_id channel_config with
  | Some config =>
      [("quest_list_channel", ChannelConfigModel.quest_list_channel config);
       ("quest_accept_channel", ChannelConfigModel.quest_accept_channel config);
       ("quest_submit_channel", ChannelConfigModel.quest_submit_channel config);
       ("quest_approval_channel",
        ChannelConfigModel.quest_approval_channel config);
       ("notification_channel", ChannelConfigModel.notification_channel config)]
  | None => []
  end.

Definition get_quest_list_channel (guild_id : Z)
    (channel_config : gmap string ChannelConfigModel.t) : option Z :=
  match JSONDatabase.get_channel_config guild_id channel_config with
  | Some config => ChannelConfigModel.quest_list_channel config
  | None => None
  end.

Definition get_quest_accept_channel (guild_id : Z)
    (channel_config : gmap string ChannelConfigModel.t) : option Z :=
  match JSONDatabase.get_channel_config guild_id channel_config with
  | Some config => ChannelConfigModel.quest_accept_channel config
  | None => None
  end.

Definition get_quest_submit_channel (guild_id : Z)
    (channel_config : gmap string ChannelConfigModel.t) : option Z :=
  match JSONDatabase.get_channel_config guild_id channel_config with
  | Some config => ChannelConfigModel.quest_submit_channel config
  | None => None
  end.

Definition get_quest_approval_channel (guild_id : Z)
    (channel_config : gmap string ChannelConfigModel.t) : option Z :=
  match JSONDatabase.get_channel_config guild_id channel_config with
  | Some config => ChannelConfigModel.quest_approval_channel config
  | None => None
  end.

Definition get_notification_channel (guild_id : Z)
    (channel_config : gmap string ChannelConfigModel.t) : option Z :=
  match JSONDatabase.get_channel_config guild_id channel_config with
  | Some config => ChannelConfigModel.notification_channel config
  | None => None
  end.
End ChannelConfig.

(** ** bot/permissions.py *)

Module permissions.
Record Role : Type := mkRole { id : Z }.
Record Member : Type := mkMember { roles : list Role }.

Definition user_has_required_roles (user : Member)
    (required_role_ids : list Z) : bool :=
  if negb (truthy required_role_ids) then true
  else
    let user_role_ids := id <$> roles user in
    existsb (fun role_id => bool_decide (role_id ∈ user_role_ids))
            required_role_ids.
(** What the two permission checks read of a member and of a guild. *)
Module Permissions.
Record t : Type := mk {
  administrator : bool;
  manage_guild : bool;
  manage_channels : bool
}.
End Permissions.

Module GuildMember.
Record t : Type := mk {
  id : Z;
  guild_permissions : Permissions.t;
  role_names : list string
}.
End GuildMember.

Module Guild.
Record t : Type := mk { owner_id : Z }.
End Guild.

Definition quest_creator_roles : list string :=
  ["Quest Master"; "Moderator"; "Admin"; "Staff"].

(** [GuildMember.role_names] is the list [[role.name for role in user.roles]]. *)
Definition has_quest_creation_permission (user : GuildMember.t)
    (guild : Guild.t) : bool :=
  if bool_decide (GuildMember.id user = Guild.owner_id guild) then true
  else if Permissions.administrator (GuildMember.guild_permissions user)
  then true
  else if Permissions.manage_guild (GuildMember.guild_permissions user)
  then true
  else if Permissions.manage_channels (GuildMember.guild_permissions user)
  then true
  else
    let user_roles := GuildMember.role_names user in
    existsb (fun role => bool_decide (role ∈ quest_creator_roles)) user_roles.

Definition can_manage_quest (user : GuildMember.t) (guild : Guild.t)
    (quest_creator_id : Z) : bool :=
  if bool_decide (GuildMember.id user = Guild.owner_id guild) then true
  else if bool_decide (GuildMember.id user = quest_creator_id) then true
  else if Permissions.administrator (GuildMember.guild_permissions user)
  then true
  else if Permissions.manage_guild (GuildMember.guild_permissions user)
  then true
  else false.

Definition can_use_quest_commands (user : GuildMember.t) (guild : Guild.t)
    : bool := true.
End permissions.

(** ** bot/quest_manager.py *)

Module QuestManager.
(** The messages [accept_quest] returns with no progress. *)
Definition NotFound : string := "Quest not found!".
Definition NotAvailable : string := "Quest is not available for acceptance!".
Definition AlreadyActive : string := "You have already accepted this quest!".
Definition MissingRole : string :=
  "You don't have the required roles for this quest!".
Definition CooldownActive (hours_remaining : Z) : string :=
  "You must wait " +:+ pretty hours_remaining
    +:+ " hours before attempting this quest again!".

(** Parameters left out of a call take their defaults: [rank] is
    [QuestRank.NORMAL], [category] is [QuestCategory.OTHER] and
    [required_role_ids] is [None]. *)
Definition create_quest (title description : string) (creator_id guild_id : Z)
    (requirements reward : string) (rank : option string)
    (required_role_ids : option (list Z)) (category : option string)
    : M Quest.t :=
  u ← uuid4_str;
  let quest_id := String.substring 0 8 u in
  now ← datetime_now;
  let quest :=
    {| Quest.quest_id := quest_id;
       Quest.title := title;
       Quest.description := description;
       Quest.creator_id := creator_id;
       Quest.guild_id := guild_id;
       Quest.requirements := requirements;
       Quest.reward := reward;
       Quest.rank := default QuestRank.NORMAL rank;
       Quest.category := default QuestCategory.OTHER category;
       Quest.status := QuestStatus.AVAILABLE;
       Quest.created_at := now;
       Quest.required_role_ids := or_empty required_role_ids |} in
  JSONDatabase.save_quest quest;;
  mret quest.

Definition get_quest (quest_id : string) : M (option Quest.t) :=
  JSONDatabase.get_quest quest_id.

(** The object the role check is given: one role per identifier. *)
Definition duck_user (user_role_ids : list Z) : permissions.Member :=
  permissions.mkMember (permissions.mkRole <$> user_role_ids).

(** The condition under which lines 78 to 81 of [accept_quest] return: both
    lists are truthy and the role check answers no. *)
Definition lacks_required_roles (quest : Quest.t)
    (user_role_ids : option (list Z)) : bool :=
  truthy (Quest.required_role_ids quest) && truthy_opt user_role_ids
    && negb (permissions.user_has_required_roles
               (duck_user (default [] user_role_ids))
               (Quest.required_role_ids quest)).

(** Lines 77 to 94 of [accept_quest]: the role check, then the new record. *)
Definition accept_quest_tail (quest : Quest.t) (quest_id : string)
    (user_id : Z) (user_role_ids : option (list Z))
    (accepted_channel_id : option Z) : M (option QuestProgress.t * string) :=
  if lacks_required_roles quest user_role_ids
  then mret (None, MissingRole)
  else
    now ← datetime_now;
    let progress :=
      {| QuestProgress.quest_id := quest_id;
         QuestProgress.user_id := user_id;
         QuestProgress.guild_id := Quest.guild_id quest;
         QuestProgress.status := QuestStatus.ACCEPTED;
         QuestProgress.accepted_at := now;
         QuestProgress.completed_at := None;
         QuestProgress.proof_text := EmptyString;
         QuestProgress.proof_image_urls := [];
         QuestProgress.approval_status := EmptyString;
         QuestProgress.accepted_channel_id := accepted_channel_id |} in
    JSONDatabase.save_quest_progress progress;;
    mret (Some progress, EmptyString).

(** Line 69 tests [existing_progress.accepted_at], which is a [datetime] on
    every object and so always true; the branch it guards is taken. *)
Definition accept_quest (quest_id : string) (user_id : Z)
    (user_role_ids : option (list Z)) (accepted_channel_id : option Z)
    : M (option QuestProgress.t * string) :=
  quest ← JSONDatabase.get_quest quest_id;
  match quest with
  | None => mret (None, NotFound)
  | Some quest =>
    if negb (String.eqb (Quest.status quest) QuestStatus.AVAILABLE)
    then mret (None, NotAvailable)
    else
      existing_progress ← JSONDatabase.get_user_quest_progress user_id quest_id;
      match existing_progress with
      | Some existing =>
        if bool_decide (QuestProgress.status existing
                          ∈ [QuestStatus.ACCEPTED; QuestStatus.COMPLETED])
        then mret (None, AlreadyActive)
        else if String.eqb (QuestProgress.status existing) QuestStatus.REJECTED
        then
          let last_attempt := QuestProgress.accepted_at existing in
          let cooldown_end := (last_attempt + timedelta_hours 24)%Z in
          now ← datetime_now;
          if (now <? cooldown_end)%Z then
            now' ← datetime_now;
            let remaining_time := (cooldown_end - now')%Z in
            let hours_remaining := int_total_hours remaining_time in
            mret (None, CooldownActive hours_remaining)
          else
            accept_quest_tail quest quest_id user_id user_role_ids
                              accepted_channel_id
        else
          accept_quest_tail quest quest_id user_id user_role_ids
                            accepted_channel_id
      | None =>
        accept_quest_tail quest quest_id user_id user_role_ids
                          accepted_channel_id
      end
  end.

Definition complete_quest (quest_id : string) (user_id : Z)
    (proof_text : string) (proof_image_urls : option (list string))
    : M (option QuestProgress.t) :=
  progress ← JSONDatabase.get_user_quest_progress user_id quest_id;
  match progress with
  | None => mret None
  | Some progress =>
    if negb (String.eqb (QuestProgress.status progress) QuestStatus.ACCEPTED)
    then mret None
    else
      now ← datetime_now;
      let progress :=
        QuestProgress.set_completed progress now proof_text
          (or_empty proof_image_urls) "pending" QuestStatus.COMPLETED in
      JSONDatabase.save_quest_progress progress;;
      mret (Some progress)
  end.

Definition approve_quest (quest_id : string) (user_id : Z) (approved : bool)
    : M (option QuestProgress.t) :=
  progress ← JSONDatabase.get_user_quest_progress user_id quest_id;
  match progress with
  | None => mret None
  | Some progress =>
    if negb (String.eqb (QuestProgress.status progress) QuestStatus.COMPLETED)
    then mret None
    else
      let progress :=
        if approved
        then QuestProgress.set_decision progress QuestStatus.APPROVED "approved"
        else QuestProgress.set_decision progress QuestStatus.REJECTED "rejected"
      in
      JSONDatabase.save_quest_progress progress;;
      mret (Some progress)
  end.

(** The store raises nothing, so the handler of [delete_quest] is never
    entered. *)
Definition delete_quest (quest_id : string) : M bool :=
  JSONDatabase.delete_quest quest_id;;
  mret true.
Definition get_guild_quests (guild_id : Z) (status : option string)
    : M (list Quest.t) :=
  JSONDatabase.get_guild_quests guild_id status.

Definition get_available_quests (guild_id : Z) : M (list Quest.t) :=
  JSONDatabase.get_guild_quests guild_id (Some QuestStatus.AVAILABLE).

Definition get_user_quests (user_id : Z) (guild_id : option Z)
    : M (list QuestProgress.t) :=
  JSONDatabase.get_user_quests user_id guild_id.

Definition get_pending_approvals (creator_id guild_id : Z)
    : M (list (string * Z * string * list string * string)) :=
  JSONDatabase.get_pending_approvals creator_id guild_id.
End QuestManager.

(** ** bot/user_stats.py *)

Module UserStatsManager.
Definition get_user_stats (user_id guild_id : Z) : M UserStats.t :=
  stats ← JSONDatabase.get_user_stats user_id guild_id;
  match stats with
  | Some stats => mret stats
  | None =>
    first ← datetime_now;
    last ← datetime_now;
    let stats :=
      {| UserStats.user_id := user_id;
         UserStats.guild_id := guild_id;
         UserStats.quests_completed := 0;
         UserStats.quests_accepted := 0;
         UserStats.quests_rejected := 0;
         UserStats.first_quest_date := first;
         UserStats.last_quest_date := last |} in
    JSONDatabase.save_user_stats stats;;
    mret stats
  end.

Definition update_quest_accepted (user_id guild_id : Z) : M unit :=
  stats ← get_user_stats user_id guild_id;
  now ← datetime_now;
  JSONDatabase.save_user_stats
    {| UserStats.user_id := UserStats.user_id stats;
       UserStats.guild_id := UserStats.guild_id stats;
       UserStats.quests_completed := UserStats.quests_completed stats;
       UserStats.quests_accepted := UserStats.quests_accepted stats + 1;
       UserStats.quests_rejected := UserStats.quests_rejected stats;
       UserStats.first_quest_date := UserStats.first_quest_date stats;
       UserStats.last_quest_date := now |}.

Definition update_quest_completed (user_id guild_id : Z) : M unit :=
  stats ← get_user_stats user_id guild_id;
  now ← datetime_now;
  JSONDatabase.save_user_stats
    {| UserStats.user_id := UserStats.user_id stats;
       UserStats.guild_id := UserStats.guild_id stats;
       UserStats.quests_completed := UserStats.quests_completed stats + 1;
       UserStats.quests_accepted := UserStats.quests_accepted stats;
       UserStats.quests_rejected := UserStats.quests_rejected stats;
       UserStats.first_quest_date := UserStats.first_quest_date stats;
       UserStats.last_quest_date := now |}.

Definition update_quest_rejected (user_id guild_id : Z) : M unit :=
  stats ← get_user_stats user_id guild_id;
  now ← datetime_now;
  JSONDatabase.save_user_stats
    {| UserStats.user_id := UserStats.user_id stats;
       UserStats.guild_id := UserStats.guild_id stats;
       UserStats.quests_completed := UserStats.quests_completed stats;
       UserStats.quests_accepted := UserStats.quests_accepted stats;
       UserStats.quests_rejected := UserStats.quests_rejected stats + 1;
       UserStats.first_quest_date := UserStats.first_quest_date stats;
       UserStats.last_quest_date := now |}.

Definition get_guild_leaderboard (guild_id limit : Z) : M (list UserStats.t) :=
  JSONDatabase.get_guild_leaderboard guild_id limit.
Definition get_total_guild_stats (guild_id : Z)
    : M JSONDatabase.GuildTotals :=
  JSONDatabase.get_total_guild_stats guild_id.
End UserStatsManager.

(** ** bot/commands.py *)

Module QuestCommands.
(** The list [stats_list] of the command [leaderboard]: its parameter
    [limit] is an optional integer, capped at 25 and replaced by 10 when it
    is falsy ([None] or 0). *)
Definition int_truthy (limit : option Z) : bool :=
  match limit with None => false | Some n => negb (n =? 0)%Z end.

Definition leaderboard_stats_list (guild_id : Z) (limit : option Z)
    : M (list UserStats.t) :=
  let limit :=
    if int_truthy limit && (25 <? default 0%Z limit)%Z then Some 25%Z
    else limit in
  UserStatsManager.get_guild_leaderboard guild_id
    (if int_truthy limit then default 0%Z limit else 10%Z).
End QuestCommands.

(** ** bot/utils.py *)

Module utils.
(** A Python string as the list of its code points, so that [len] and the
    slices count what the source counts. *)
Abbreviation str := (list N) (only parsing).

(** ["..."]. *)
Definition dots : list N := [46; 46; 46]%N.

Definition truncate_text (text : str) (max_length : Z) : str :=
  if (Z.of_nat (length text) <=? max_length)%Z then text
  else slice_to text (max_length - 3) ++ dots.

(** The message returned, or [None] when the data pass. *)
Definition validate_quest_data (title description requirements reward : str)
    : option string :=
  if negb (truthy title) || (100 <? Z.of_nat (length title))%Z
  then Some "Quest title must be between 1 and 100 characters"
  else if negb (truthy description)
          || (2000 <? Z.of_nat (length description))%Z
  then Some "Quest description must be between 1 and 2000 characters"
  else if (1000 <? Z.of_nat (length requirements))%Z
  then Some "Requirements must be less than 1000 characters"
  else if (1000 <? Z.of_nat (length reward))%Z
  then Some "Reward must be less than 1000 characters"
  else None.
End utils.

(** * The vocabulary of the properties *)

Fixpoint occurs (c : ascii) (s : string) : Prop :=
  match s with
  | EmptyString => False
  | String a s' => a = c ∨ occurs c s'
  end.

(** Every progress record is filed under the key of its own pair. *)
Definition progress_keyed (db : JSONDatabase) : Prop :=
  ∀ k p, quest_progress db !! k = Some p →
    k = progress_key (QuestProgress.user_id p) (QuestProgress.quest_id p).

(** Every progress record names a quest of the store. *)
Definition progress_refers (db : JSONDatabase) : Prop :=
  ∀ k p, quest_progress db !! k = Some p →
    is_Some (quests db !! QuestProgress.quest_id p).

(** Every statistics record is filed under the key of its own pair. *)
Definition stats_keyed (db : JSONDatabase) : Prop :=
  ∀ k s, (k, s) ∈ user_stats db →
    k = stats_key (UserStats.user_id s) (UserStats.guild_id s).

Definition consistent (db : JSONDatabase) : Prop :=
  progress_keyed db ∧ progress_refers db ∧ stats_keyed db.

(** Every quest of the store has the status it was created with. *)
Definition quests_available (db : JSONDatabase) : Prop :=
  ∀ k q, quests db !! k = Some q → Quest.status q = QuestStatus.AVAILABLE.

(** The progress records of a pair, by what the records say. *)
Definition records_of (user_id : Z) (quest_id : string) (db : JSONDatabase)
    : gmap string QuestProgress.t :=
  filter (fun kp => QuestProgress.user_id kp.2 = user_id
                    ∧ QuestProgress.quest_id kp.2 = quest_id)
         (quest_progress db).

Ltac mrun :=
  unfold QuestManager.accept_quest, QuestManager.accept_quest_tail,
    QuestManager.complete_quest, QuestManager.approve_quest,
    QuestManager.delete_quest, QuestManager.create_quest,
    JSONDatabase.get_quest, JSONDatabase.get_user_quest_progress,
    JSONDatabase.save_quest_progress, JSONDatabase.save_quest,
    JSONDatabase.delete_quest, JSONDatabase.save_user_stats,
    JSONDatabase.get_user_stats, JSONDatabase.get_guild_leaderboard,
    UserStatsManager.get_user_stats,
    mbind, M_bind, mret, M_ret, get_db, put_db, datetime_now, uuid4_str in *;
  simpl in *.

(** ** Sample data for the closed instances *)

Definition demo_quest (required : list Z) : Quest.t :=
  {| Quest.quest_id := "q1"; Quest.title := "Scout the pass";
     Quest.description := "Report what you find"; Quest.creator_id := 1;
     Quest.guild_id := 10; Quest.requirements := EmptyString;
     Quest.reward := "50 gold"; Quest.rank := QuestRank.HARD;
     Quest.category := QuestCategory.OTHER;
     Quest.status := QuestStatus.AVAILABLE; Quest.created_at := 0;
     Quest.required_role_ids := required |}.

Definition demo_progress (user_id : Z) (status : string) (accepted_at : Z)
    : QuestProgress.t :=
  {| QuestProgress.quest_id := "q1"; QuestProgress.user_id := user_id;
     QuestProgress.guild_id := 10; QuestProgress.status := status;
     QuestProgress.accepted_at := accepted_at;
     QuestProgress.completed_at := None;
     QuestProgress.proof_text := EmptyString;
     QuestProgress.proof_image_urls := [];
     QuestProgress.approval_status := EmptyString;
     QuestProgress.accepted_channel_id := None |}.

(** A store with the quest "q1" and the given progress records. *)
Definition demo_db (required : list Z) (records : list QuestProgress.t)
    : JSONDatabase :=
  {| quests := {[ "q1" := demo_quest required ]};
     quest_progress :=
       list_to_map
         ((fun p => (progress_key (QuestProgress.user_id p)
                                  (QuestProgress.quest_id p), p)) <$> records);
     user_stats := [] |}.

(** A world whose clock starts at [now] and advances by one microsecond at
    each reading. *)
Definition demo_world (db : JSONDatabase) (now : Z) : World :=
  {| database := db; clock := fun n => (now + Z.of_nat n)%Z; ticks := 0;
     uuid_pool := fun _ => "3f2b8c1e-0000-4000-8000-000000000000";
     draws := 0 |}.

(** What the progress checks of lines 62 to 75 let through: no record, or a
    record that is neither active nor inside its cooldown at the reading of
    the clock the check makes. *)
Definition unblocked (w : World) (user_id : Z) (quest_id : string) : Prop :=
  match quest_progress (database w) !! progress_key user_id quest_id with
  | None => True
  | Some e =>
      QuestProgress.status e ≠ QuestStatus.ACCEPTED
      ∧ QuestProgress.status e ≠ QuestStatus.COMPLETED
      ∧ (QuestProgress.status e = QuestStatus.REJECTED →
         (QuestProgress.accepted_at e + timedelta_hours 24
            <= clock w (ticks w))%Z)
  end.

(** The world in which the tail of [accept_quest] runs: one reading of the
    clock later when the record of the pair is a rejected one. *)
Definition after_checks (w : World) (user_id : Z) (quest_id : string) : World :=
  match quest_progress (database w) !! progress_key user_id quest_id with
  | Some e =>
      if String.eqb (QuestProgress.status e) QuestStatus.REJECTED
      then (datetime_now w).2 else w
  | None => w
  end.

(** A call of one of the entry points that write to the store. *)
Inductive Call : Type :=
  | CreateQuest (title description : string) (creator_id guild_id : Z)
      (requirements reward : string) (rank : option string)
      (required_role_ids : option (list Z)) (category : option string)
  | AcceptQuest (quest_id : string) (user_id : Z)
      (user_role_ids : option (list Z)) (accepted_channel_id : option Z)
  | CompleteQuest (quest_id : string) (user_id : Z) (proof_text : string)
      (proof_image_urls : option (list string))
  | ApproveQuest (quest_id : string) (user_id : Z) (approved : bool)
  | DeleteQuest (quest_id : string)
  | RecordAccepted (user_id guild_id : Z)
  | RecordCompleted (user_id guild_id : Z)
  | RecordRejected (user_id guild_id : Z).

Definition run_call (c : Call) (w : World) : World :=
  match c with
  | CreateQuest t d c g rq rw rk rr ct =>
      (QuestManager.create_quest t d c g rq rw rk rr ct w).2
  | AcceptQuest q u rs ch => (QuestManager.accept_quest q u rs ch w).2
  | CompleteQuest q u t us => (QuestManager.complete_quest q u t us w).2
  | ApproveQuest q u a => (QuestManager.approve_quest q u a w).2
  | DeleteQuest q => (QuestManager.delete_quest q w).2
  | RecordAccepted u g => (UserStatsManager.update_quest_accepted u g w).2
  | RecordCompleted u g => (UserStatsManager.update_quest_completed u g w).2
  | RecordRejected u g => (UserStatsManager.update_quest_rejected u g w).2
  end.

Definition run_calls (cs : list Call) (w : World) : World :=
  foldl (fun w c => run_call c w) w cs.

(** The counters of a pair, [(completed, accepted, rejected)]; a pair with no
    record yet counts zero, which is what loading it creates. *)
Definition counters (db : JSONDatabase) (user_id guild_id : Z) : Z * Z * Z :=
  match dict_get (stats_key user_id guild_id) (user_stats db) with
  | Some s =>
      (UserStats.quests_completed s, UserStats.quests_accepted s,
       UserStats.quests_rejected s)
  | None => (0, 0, 0)%Z
  end.

Definition counters_le (x y : Z * Z * Z) : Prop :=
  (x.1.1 <= y.1.1 ∧ x.1.2 <= y.1.2 ∧ x.2 <= y.2)%Z.

(** The shape the three recording methods share: load or create, change the
    record, write it back. *)
Definition update_with (change : UserStats.t → datetime → UserStats.t)
    (user_id guild_id : Z) : M unit :=
  stats ← UserStatsManager.get_user_stats user_id guild_id;
  now ← datetime_now;
  JSONDatabase.save_user_stats (change stats now).

Definition keeps_pair (change : UserStats.t → datetime → UserStats.t) : Prop :=
  ∀ s t, UserStats.user_id (change s t) = UserStats.user_id s
       ∧ UserStats.guild_id (change s t) = UserStats.guild_id s.

Definition add_accepted (s : UserStats.t) (now : datetime) : UserStats.t :=
  {| UserStats.user_id := UserStats.user_id s;
     UserStats.guild_id := UserStats.guild_id s;
     UserStats.quests_completed := UserStats.quests_completed s;
     UserStats.quests_accepted := UserStats.quests_accepted s + 1;
     UserStats.quests_rejected := UserStats.quests_rejected s;
     UserStats.first_quest_date := UserStats.first_quest_date s;
     UserStats.last_quest_date := now |}.

Definition add_completed (s : UserStats.t) (now : datetime) : UserStats.t :=
  {| UserStats.user_id := UserStats.user_id s;
     UserStats.guild_id := UserStats.guild_id s;
     UserStats.quests_completed := UserStats.quests_completed s + 1;
     UserStats.quests_accepted := UserStats.quests_accepted s;
     UserStats.quests_rejected := UserStats.quests_rejected s;
     UserStats.first_quest_date := UserStats.first_quest_date s;
     UserStats.last_quest_date := now |}.

Definition add_rejected (s : UserStats.t) (now : datetime) : UserStats.t :=
  {| UserStats.user_id := UserStats.user_id s;
     UserStats.guild_id := UserStats.guild_id s;
     UserStats.quests_completed := UserStats.quests_completed s;
     UserStats.quests_accepted := UserStats.quests_accepted s;
     UserStats.quests_rejected := UserStats.quests_rejected s + 1;
     UserStats.first_quest_date := UserStats.first_quest_date s;
     UserStats.last_quest_date := now |}.

(** The records of a guild, in the order of insertion. *)
Definition guild_records (db : JSONDatabase) (guild_id : Z) : list UserStats.t :=
  filter (fun s => UserStats.guild_id s = guild_id)
         (dict_values (user_stats db)).

(** ** More sample data: statistics records of the guild 10 *)

Definition demo_stats (user_id completed accepted : Z) : UserStats.t :=
  {| UserStats.user_id := user_id; UserStats.guild_id := 10;
     UserStats.quests_completed := completed;
     UserStats.quests_accepted := accepted;
     UserStats.quests_rejected := 0;
     UserStats.first_quest_date := 0; UserStats.last_quest_date := 0 |}.

(** A store with the given statistics records, inserted in that order. *)
Definition demo_stats_db (records : list UserStats.t) : JSONDatabase :=
  {| quests := ∅; quest_progress := ∅;
     user_stats :=
       (fun s => (stats_key (UserStats.user_id s) (UserStats.guild_id s), s))
         <$> records |}.

(** ** The vocabulary of the further properties *)

(** The stored records of a user, of one guild when one is given. *)
Definition user_records (db : JSONDatabase) (user_id : Z)
    (guild_id : option Z) : list QuestProgress.t :=
  filter (fun p => QuestProgress.user_id p = user_id
                   ∧ (guild_id = None
                      ∨ Some (QuestProgress.guild_id p) = guild_id))
         (map_to_list (quest_progress db)).*2.

(** The sum of a counter over a list of records. *)
Definition sum_of (f : UserStats.t → Z) (l : list UserStats.t) : Z :=
  foldr (fun s acc => (f s + acc)%Z) 0%Z l.

(** Whether recording for a pair creates its record: 1 when the pair has
    none yet. *)
Definition newcomer (db : JSONDatabase) (user_id guild_id : Z) : Z :=
  match dict_get (stats_key user_id guild_id) (user_stats db) with
  | Some _ => 0
  | None => 1
  end.





(** * Properties *)

(** ** The dictionary keys determine the pair they were built from *)

Lemma pretty_N_char_digit (n : N) : pretty_N_char n ≠ "_"%char.
Proof. unfold pretty_N_char. repeat case_match; discriminate. Qed.

Lemma pretty_N_go_occurs (x : N) (s : string) :
  ¬ occurs "_" s → ¬ occurs "_" (pretty_N_go x s).
Proof.
  revert s. induction (N.lt_wf_0 x) as [x _ IH]. intros s Hs.
  destruct (decide (x = 0)%N) as [->|Hx].
  - by rewrite pretty_N_go_0.
  - rewrite pretty_N_go_step by lia.
    apply IH; [apply N.div_lt; lia|].
    simpl. intros [H|H]; [by apply pretty_N_char_digit in H|done].
Qed.

Lemma pretty_N_occurs (x : N) : ¬ occurs "_" (pretty x).
Proof.
  unfold pretty, pretty_N. case_decide.
  - simpl. intros [H0|[]]. discriminate.
  - apply pretty_N_go_occurs. simpl. tauto.
Qed.

Lemma pretty_Z_occurs (x : Z) : ¬ occurs "_" (pretty x).
Proof.
  destruct x as [|p|p]; unfold pretty, pretty_Z.
  - simpl. intros [H|[]]. discriminate.
  - apply (pretty_N_occurs (Npos p)).
  - simpl. intros [H|H]; [discriminate|]. by apply (pretty_N_occurs (Npos p)) in H.
Qed.

Lemma separator_inj (u v s t : string) :
  ¬ occurs "_" u → ¬ occurs "_" v →
  u +:+ "_" +:+ s = v +:+ "_" +:+ t → u = v ∧ s = t.
Proof.
  revert v. induction u as [|a u IH]; intros [|b v] Hu Hv Heq; simpl in *.
  - by injection Heq.
  - injection Heq as Hb _. destruct Hv. by left.
  - injection Heq as Ha _. destruct Hu. by left.
  - injection Heq as -> Heq. destruct (IH v) as [-> ->]; [tauto..|done|done].
Qed.

Lemma progress_key_inj u q u' q' :
  progress_key u q = progress_key u' q' → u = u' ∧ q = q'.
Proof.
  unfold progress_key. intros H.
  apply separator_inj in H as [H ->]; [|apply pretty_Z_occurs..].
  by apply (inj pretty) in H as ->.
Qed.

Lemma stats_key_inj u g u' g' :
  stats_key u g = stats_key u' g' → u = u' ∧ g = g'.
Proof.
  unfold stats_key. intros H.
  apply separator_inj in H as [H1 H2]; [|apply pretty_Z_occurs..].
  apply (inj pretty) in H1 as ->. by apply (inj pretty) in H2 as ->.
Qed.

(** ** Dictionaries *)

Section dictionaries.
Context {V : Type}.
Implicit Types (d : list (string * V)) (m : gmap string V).

Lemma dict_get_set_eq k v d : dict_get k (dict_set k v d) = Some v.
Proof.
  induction d as [|[k' v'] d IH]; simpl.
  - by rewrite String.eqb_refl.
  - destruct (String.eqb k k') eqn:E; simpl; rewrite ?String.eqb_refl, ?E; done.
Qed.

Lemma dict_get_set_ne k k' v d :
  k ≠ k' → dict_get k' (dict_set k v d) = dict_get k' d.
Proof.
  intros Hne. induction d as [|[k0 v0] d IH]; simpl.
  - destruct (String.eqb_spec k' k); congruence.
  - destruct (String.eqb_spec k k0) as [->|]; simpl.
    + destruct (String.eqb_spec k' k0); congruence.
    + by rewrite IH.
Qed.

Lemma dict_get_elem_of k v d : dict_get k d = Some v → (k, v) ∈ d.
Proof.
  induction d as [|[k' v'] d IH]; simpl; [done|].
  destruct (String.eqb_spec k k') as [->|].
  - intros [= ->]. left.
  - intros. right. auto.
Qed.

Lemma elem_of_dict_set k v k' v' d :
  (k', v') ∈ dict_set k v d → (k', v') = (k, v) ∨ (k', v') ∈ d.
Proof.
  induction d as [|[k0 v0] d IH]; simpl.
  - rewrite list_elem_of_singleton. auto.
  - destruct (String.eqb k k0); rewrite !elem_of_cons; intuition.
Qed.

Lemma lookup_foldr_delete m (ks : list string) k :
  foldr delete m ks !! k = if decide (k ∈ ks) then None else m !! k.
Proof.
  induction ks as [|k0 ks IH]; simpl; [done|].
  destruct (decide (k0 = k)) as [->|Hne].
  - rewrite lookup_delete_eq.
    destruct (decide (k ∈ k :: ks)) as [Hin|Hin]; [done|].
    destruct Hin. left.
  - rewrite lookup_delete_ne, IH by done.
    destruct (decide (k ∈ ks)) as [H1|H1],
             (decide (k ∈ k0 :: ks)) as [H2|H2]; try done.
    + destruct H2. by right.
    + apply elem_of_cons in H2 as [->|]; done.
Qed.
End dictionaries.

Lemma elem_of_to_remove quest_id (m : gmap string QuestProgress.t) k :
  k ∈ JSONDatabase.to_remove quest_id m ↔
  ∃ p, m !! k = Some p ∧ QuestProgress.quest_id p = quest_id.
Proof.
  unfold JSONDatabase.to_remove. rewrite list_elem_of_fmap. split.
  - intros [[k' p] [-> H]]. apply list_elem_of_filter in H as [Hq H].
    apply elem_of_map_to_list in H. eauto.
  - intros (p & Hk & Hq). exists (k, p). split; [done|].
    apply list_elem_of_filter. split; [done|]. by apply elem_of_map_to_list.
Qed.

(** ** The records of a pair *)

Lemma status_in_active (st : string) :
  st ∈ [QuestStatus.ACCEPTED; QuestStatus.COMPLETED] ↔
  st = QuestStatus.ACCEPTED ∨ st = QuestStatus.COMPLETED.
Proof. rewrite !elem_of_cons, elem_of_nil. tauto. Qed.

Lemma records_of_keyed user_id quest_id db p :
  progress_keyed db →
  quest_progress db !! progress_key user_id quest_id = Some p →
  records_of user_id quest_id db = {[ progress_key user_id quest_id := p ]}.
Proof.
  intros Hk Hp. unfold records_of.
  assert (Hq := Hk _ _ Hp). apply progress_key_inj in Hq as [Hu Hq].
  apply map_eq. intros k. apply option_eq. intros x.
  rewrite map_lookup_filter_Some, lookup_singleton_Some. simpl. split.
  - intros (Hx & <- & <-). rewrite (Hk _ _ Hx) in Hx |- *. split; congruence.
  - intros [<- <-]. split; [done|]. by split.
Qed.

Lemma progress_keyed_insert db p qs st :
  progress_keyed db →
  progress_keyed
    {| quests := qs;
       quest_progress :=
         <[progress_key (QuestProgress.user_id p) (QuestProgress.quest_id p)
           := p]> (quest_progress db);
       user_stats := st |}.
Proof.
  intros Hk k x. simpl. rewrite lookup_insert_Some.
  intros [[<- <-]|[_ Hx]]; [done|]. by apply Hk.
Qed.

Lemma accept_quest_active w quest_id user_id user_role_ids ch q p :
  quests (database w) !! quest_id = Some q →
  Quest.status q = QuestStatus.AVAILABLE →
  quest_progress (database w) !! progress_key user_id quest_id = Some p →
  QuestProgress.status p = QuestStatus.ACCEPTED
    ∨ QuestProgress.status p = QuestStatus.COMPLETED →
  QuestManager.accept_quest quest_id user_id user_role_ids ch w
    = (None, QuestManager.AlreadyActive, w).
Proof.
  intros Hq Hst Hp Hact. mrun. rewrite Hq, Hst. simpl. rewrite Hp.
  by rewrite bool_decide_true by (by apply status_in_active).
Qed.

Lemma accept_quest_tail_Some w q quest_id user_id user_role_ids ch p :
  (QuestManager.accept_quest_tail q quest_id user_id user_role_ids ch w).1.1
    = Some p →
  p = {| QuestProgress.quest_id := quest_id;
         QuestProgress.user_id := user_id;
         QuestProgress.guild_id := Quest.guild_id q;
         QuestProgress.status := QuestStatus.ACCEPTED;
         QuestProgress.accepted_at := clock w (ticks w);
         QuestProgress.completed_at := None;
         QuestProgress.proof_text := EmptyString;
         QuestProgress.proof_image_urls := [];
         QuestProgress.approval_status := EmptyString;
         QuestProgress.accepted_channel_id := ch |}
  ∧ QuestManager.accept_quest_tail q quest_id user_id user_role_ids ch w
    = (Some p, EmptyString,
       {| database :=
            {| quests := quests (database w);
               quest_progress :=
                 <[progress_key user_id quest_id := p]>
                   (quest_progress (database w));
               user_stats := user_stats (database w) |};
          clock := clock w; ticks := S (ticks w);
          uuid_pool := uuid_pool w; draws := draws w |}).
Proof.
  mrun. case_match; simpl; [done|]. intros [= <-]. done.
Qed.

Lemma accept_quest_Some w quest_id user_id user_role_ids ch p :
  (QuestManager.accept_quest quest_id user_id user_role_ids ch w).1.1
    = Some p →
  ∃ q,
    quests (database w) !! quest_id = Some q
    ∧ Quest.status q = QuestStatus.AVAILABLE
    ∧ QuestProgress.quest_id p = quest_id
    ∧ QuestProgress.user_id p = user_id
    ∧ QuestProgress.status p = QuestStatus.ACCEPTED
    ∧ (QuestManager.accept_quest quest_id user_id user_role_ids ch w).1.2
        = EmptyString
    ∧ database
        (QuestManager.accept_quest quest_id user_id user_role_ids ch w).2
      = {| quests := quests (database w);
           quest_progress :=
             <[progress_key user_id quest_id := p]>
               (quest_progress (database w));
           user_stats := user_stats (database w) |}.
Proof.
  unfold QuestManager.accept_quest, JSONDatabase.get_quest,
    JSONDatabase.get_user_quest_progress, mbind, M_bind, mret, M_ret, get_db.
  simpl.
  destruct (quests (database w) !! quest_id) as [q|] eqn:Hq; [|done].
  destruct (String.eqb_spec (Quest.status q) QuestStatus.AVAILABLE)
    as [Hst|]; [simpl|done].
  intros H. exists q. split; [done|]. split; [done|].
  destruct (quest_progress (database w) !! _) as [e|].
  - destruct (bool_decide _); [done|].
    destruct (String.eqb _ QuestStatus.REJECTED).
    + unfold datetime_now in *. simpl in *.
      destruct (_ <? _)%Z; [done|].
      apply accept_quest_tail_Some in H as [-> ->]. done.
    + apply accept_quest_tail_Some in H as [-> ->]. done.
  - apply accept_quest_tail_Some in H as [-> ->]. done.
Qed.

Lemma accept_quest_unblocked w quest_id user_id user_role_ids ch q :
  quests (database w) !! quest_id = Some q →
  Quest.status q = QuestStatus.AVAILABLE →
  unblocked w user_id quest_id →
  QuestManager.accept_quest quest_id user_id user_role_ids ch w
  = QuestManager.accept_quest_tail q quest_id user_id user_role_ids ch
      (after_checks w user_id quest_id).
Proof.
  intros Hq Hst Hu. unfold unblocked, after_checks in *.
  unfold QuestManager.accept_quest, JSONDatabase.get_quest,
    JSONDatabase.get_user_quest_progress, mbind, M_bind, mret, M_ret, get_db.
  simpl. rewrite Hq, Hst. simpl.
  destruct (quest_progress (database w) !! _) as [e|]; [|done].
  destruct Hu as (Ha & Hc & Hr).
  rewrite bool_decide_false by (rewrite status_in_active; tauto).
  destruct (String.eqb_spec (QuestProgress.status e) QuestStatus.REJECTED)
    as [Hrej|]; [|done].
  simpl. specialize (Hr Hrej).
  destruct (Z.ltb_spec (clock w (ticks w))
              (QuestProgress.accepted_at e + timedelta_hours 24)); [lia|done].
Qed.

Lemma after_checks_database w user_id quest_id :
  database (after_checks w user_id quest_id) = database w.
Proof. unfold after_checks. repeat case_match; done. Qed.

Lemma accept_quest_tail_run w q quest_id user_id user_role_ids ch :
  QuestManager.accept_quest_tail q quest_id user_id user_role_ids ch w
  = if QuestManager.lacks_required_roles q user_role_ids
    then (None, QuestManager.MissingRole, w)
    else
      let p :=
        {| QuestProgress.quest_id := quest_id;
           QuestProgress.user_id := user_id;
           QuestProgress.guild_id := Quest.guild_id q;
           QuestProgress.status := QuestStatus.ACCEPTED;
           QuestProgress.accepted_at := clock w (ticks w);
           QuestProgress.completed_at := None;
           QuestProgress.proof_text := EmptyString;
           QuestProgress.proof_image_urls := [];
           QuestProgress.approval_status := EmptyString;
           QuestProgress.accepted_channel_id := ch |} in
      (Some p, EmptyString,
       {| database :=
            {| quests := quests (database w);
               quest_progress :=
                 <[progress_key user_id quest_id := p]>
                   (quest_progress (database w));
               user_stats := user_stats (database w) |};
          clock := clock w; ticks := S (ticks w);
          uuid_pool := uuid_pool w; draws := draws w |}).
Proof. unfold QuestManager.accept_quest_tail. by case_match. Qed.

(** [accept_quest] returns a progress exactly when the quest is there and
    available, the record of the pair does not block, and the role check
    lets the caller through. *)
Lemma accept_quest_succeeds w quest_id user_id user_role_ids ch :
  is_Some (QuestManager.accept_quest quest_id user_id user_role_ids ch w).1.1
  ↔ ∃ q, quests (database w) !! quest_id = Some q
         ∧ Quest.status q = QuestStatus.AVAILABLE
         ∧ unblocked w user_id quest_id
         ∧ QuestManager.lacks_required_roles q user_role_ids = false.
Proof.
  split.
  - intros [p Hp].
    destruct (accept_quest_Some _ _ _ _ _ _ Hp) as (q & Hq & Hst & _).
    exists q. split; [done|]. split; [done|].
    revert Hp. unfold unblocked.
    unfold QuestManager.accept_quest, JSONDatabase.get_quest,
      JSONDatabase.get_user_quest_progress, mbind, M_bind, mret, M_ret,
      get_db, datetime_now.
    simpl. rewrite Hq, Hst. simpl.
    assert (∀ w', (QuestManager.accept_quest_tail q quest_id user_id
                     user_role_ids ch w').1.1 = Some p →
                  QuestManager.lacks_required_roles q user_role_ids = false)
      as Htail.
    { intros w'. rewrite accept_quest_tail_run.
      by destruct (QuestManager.lacks_required_roles q user_role_ids). }
    destruct (quest_progress (database w) !! _) as [e|]; [|by eauto].
    case_bool_decide as Hact; [done|]. rewrite status_in_active in Hact.
    destruct (String.eqb_spec (QuestProgress.status e) QuestStatus.REJECTED)
      as [Hrej|Hrej].
    + simpl.
      destruct (Z.ltb_spec (clock w (ticks w))
                  (QuestProgress.accepted_at e + timedelta_hours 24));
        [done|].
      intros Hp. split; [|by eapply Htail].
      split; [tauto|]. split; [tauto|]. done.
    + intros Hp. split; [|by eapply Htail].
      split; [tauto|]. split; [tauto|]. done.
  - intros (q & Hq & Hst & Hu & Hroles).
    rewrite (accept_quest_unblocked _ _ _ _ _ q), accept_quest_tail_run, Hroles
      by done.
    by eexists.
Qed.

(** ** Accepting a quest *)

(** C1.  [accept_quest] answers [NotFound] when the quest is absent, else
    [NotAvailable] when its status is not "available", else [AlreadyActive]
    when the progress record of the pair is "accepted" or "completed", in
    this order; a call that returns no progress leaves the store as it was.
    The call succeeds exactly when the quest is there and available, the
    record of the pair does not block (there is none, or it is neither
    active nor a rejected one inside its cooldown) and the role check lets
    the caller through; it then returns, with an empty message, a record of
    status "accepted" that it files under the key of the pair, leaving the
    quests and the statistics alone, after which the same call answers
    [AlreadyActive] and changes nothing, and the store holds exactly one
    record of the pair. *)
Theorem accept_quest_checks (w : World) (quest_id : string) (user_id : Z)
    (user_role_ids : option (list Z)) (accepted_channel_id : option Z) :
  let r := QuestManager.accept_quest quest_id user_id user_role_ids
             accepted_channel_id w in
  (quests (database w) !! quest_id = None →
     r.1 = (None, QuestManager.NotFound))
  ∧ (∀ q, quests (database w) !! quest_id = Some q →
       Quest.status q ≠ QuestStatus.AVAILABLE →
       r.1 = (None, QuestManager.NotAvailable))
  ∧ (∀ q p, quests (database w) !! quest_id = Some q →
       Quest.status q = QuestStatus.AVAILABLE →
       quest_progress (database w) !! progress_key user_id quest_id = Some p →
       QuestProgress.status p = QuestStatus.ACCEPTED
         ∨ QuestProgress.status p = QuestStatus.COMPLETED →
       r.1 = (None, QuestManager.AlreadyActive))
  ∧ (r.1.1 = None → database r.2 = database w)
  ∧ (is_Some r.1.1
     ↔ ∃ q, quests (database w) !! quest_id = Some q
            ∧ Quest.status q = QuestStatus.AVAILABLE
            ∧ unblocked w user_id quest_id
            ∧ QuestManager.lacks_required_roles q user_role_ids = false)
  ∧ (∀ q, quests (database w) !! quest_id = Some q →
       Quest.status q = QuestStatus.AVAILABLE →
       quest_progress (database w) !! progress_key user_id quest_id = None →
       QuestManager.lacks_required_roles q user_role_ids = false →
       is_Some r.1.1)
  ∧ (∀ p, r.1.1 = Some p →
       r.1.2 = EmptyString
       ∧ QuestProgress.status p = QuestStatus.ACCEPTED
       ∧ QuestProgress.user_id p = user_id
       ∧ QuestProgress.quest_id p = quest_id
       ∧ quest_progress (database r.2)
           = <[progress_key user_id quest_id := p]>
               (quest_progress (database w))
       ∧ quests (database r.2) = quests (database w)
       ∧ user_stats (database r.2) = user_stats (database w)
       ∧ (let r' := QuestManager.accept_quest quest_id user_id user_role_ids
                      accepted_channel_id r.2 in
          r'.1 = (None, QuestManager.AlreadyActive)
          ∧ database r'.2 = database r.2
          ∧ (progress_keyed (database w) →
             size (records_of user_id quest_id (database r'.2)) = 1))).
Proof.
  intros r. subst r. split; [|split; [|split; [|split; [|split; [|split]]]]].
  - intros Hq. mrun. by rewrite Hq.
  - intros q Hq Hst. mrun. rewrite Hq.
    destruct (String.eqb_spec (Quest.status q) QuestStatus.AVAILABLE); done.
  - intros q p Hq Hst Hp Hact.
    by rewrite (accept_quest_active _ _ _ _ _ _ _ Hq Hst Hp Hact).
  - mrun. destruct (quests (database w) !! quest_id) as [q|]; [|done].
    destruct (negb _); [done|].
    destruct (quest_progress (database w) !! _) as [p|];
      repeat (case_match; simpl; try done).
  - apply accept_quest_succeeds.
  - intros q Hq Hst Hnone Hroles. apply accept_quest_succeeds.
    exists q. split; [done|]. split; [done|]. split; [|done].
    unfold unblocked. by rewrite Hnone.
  - intros p H.
    destruct (accept_quest_Some _ _ _ _ _ _ H)
      as (q & Hq & Hst & Hqid & Huid & Hs & Hmsg & Hdb).
    split; [done|]. split; [done|]. split; [done|]. split; [done|].
    split; [by rewrite Hdb|]. split; [by rewrite Hdb|].
    split; [by rewrite Hdb|].
    set (w' := (QuestManager.accept_quest _ _ _ _ w).2) in *.
    assert (QuestManager.accept_quest quest_id user_id user_role_ids
              accepted_channel_id w' = (None, QuestManager.AlreadyActive, w'))
      as Hact.
    { apply accept_quest_active with q p; rewrite ?Hdb; simpl;
        [done|done|apply lookup_insert_eq|by left]. }
    rewrite Hact. simpl. split; [done|]. split; [done|].
    intros Hk. rewrite (records_of_keyed _ _ _ p).
    + apply map_size_singleton.
    + rewrite Hdb, <- Huid, <- Hqid. by apply progress_keyed_insert.
    + rewrite Hdb. simpl. apply lookup_insert_eq.
Qed.

Lemma accept_quest_checks_witness :
  let r := QuestManager.accept_quest "q1" 5 None None
             (demo_world (demo_db [] []) 0) in
  let r' := QuestManager.accept_quest "q1" 5 None None r.2 in
  is_Some r.1.1
  ∧ r'.1 = (None, QuestManager.AlreadyActive)
  ∧ size (records_of 5 "q1" (database r'.2)) = 1.
Proof.
  pose proof (accept_quest_checks (demo_world (demo_db [] []) 0) "q1" 5
                None None) as H.
  cbv zeta in H. destruct H as (_ & _ & _ & _ & _ & Hgo & Hdone).
  assert (is_Some (QuestManager.accept_quest "q1" 5 None None
                     (demo_world (demo_db [] []) 0)).1.1) as Hs.
  { apply (Hgo (demo_quest [])); vm_compute; reflexivity. }
  split; [exact Hs|]. destruct Hs as [p Hp].
  destruct (Hdone p Hp) as (_ & _ & _ & _ & _ & _ & _ & H1 & _ & H2).
  split; [exact H1|]. apply H2.
  intros k x Hx. exfalso. revert Hx. simpl. rewrite lookup_empty. discriminate.
Defined.


(** ** The cooldown after a rejection *)




(** ** Completing and deciding *)

(** C3.  [complete_quest] returns nothing and leaves the world as it was
    when the pair has no progress record or a record whose status is not
    exactly "accepted"; otherwise it returns the record with status
    "completed", [completed_at] the current time, the proof text and the
    attachments as given (none given: the empty list) and the tag "pending",
    and files it under the key of the record, which in a store whose keys
    are those of the records is the key of the pair. *)
Theorem complete_quest_spec (w : World) (quest_id : string) (user_id : Z)
    (proof_text : string) (proof_image_urls : option (list string)) :
  let r := QuestManager.complete_quest quest_id user_id proof_text
             proof_image_urls w in
  match quest_progress (database w) !! progress_key user_id quest_id with
  | None => r = (None, w)
  | Some p =>
    if bool_decide (QuestProgress.status p = QuestStatus.ACCEPTED) then
      let p' :=
        {| QuestProgress.quest_id := QuestProgress.quest_id p;
           QuestProgress.user_id := QuestProgress.user_id p;
           QuestProgress.guild_id := QuestProgress.guild_id p;
           QuestProgress.status := QuestStatus.COMPLETED;
           QuestProgress.accepted_at := QuestProgress.accepted_at p;
           QuestProgress.completed_at := Some (clock w (ticks w));
           QuestProgress.proof_text := proof_text;
           QuestProgress.proof_image_urls := default [] proof_image_urls;
           QuestProgress.approval_status := "pending";
           QuestProgress.accepted_channel_id :=
             QuestProgress.accepted_channel_id p |} in
      r.1 = Some p'
      ∧ quests (database r.2) = quests (database w)
      ∧ user_stats (database r.2) = user_stats (database w)
      ∧ quest_progress (database r.2)
        = <[progress_key (QuestProgress.user_id p) (QuestProgress.quest_id p)
            := p']> (quest_progress (database w))
      ∧ (progress_keyed (database w) →
         quest_progress (database r.2) !! progress_key user_id quest_id
           = Some p')
    else r = (None, w)
  end.
Proof.
  intros r. subst r.
  unfold QuestManager.complete_quest, JSONDatabase.get_user_quest_progress,
    JSONDatabase.save_quest_progress, mbind, M_bind, mret, M_ret, get_db,
    put_db, datetime_now.
  simpl.
  destruct (quest_progress (database w) !! _) as [p|] eqn:Hp; [|done].
  case_bool_decide as Hst.
  - rewrite Hst. simpl.
    assert (or_empty proof_image_urls = default [] proof_image_urls) as ->.
    { by destruct proof_image_urls as [[|??]|]. }
    repeat split. intros Hk. rewrite <- (Hk _ _ Hp). apply lookup_insert_eq.
  - destruct (String.eqb_spec (QuestProgress.status p) QuestStatus.ACCEPTED);
      done.
Qed.

(** C4.  [approve_quest] returns a record exactly when the pair has a
    progress record whose status is exactly "completed", and otherwise leaves
    the world as it was; the record returned is the stored one with status
    "approved" or "rejected" as [approved] says, its approval tag is equal to
    that status, and it replaces the stored record, which in a store whose
    keys are those of the records is the record of the pair. *)
Theorem approve_quest_spec (w : World) (quest_id : string) (user_id : Z)
    (approved : bool) :
  let r := QuestManager.approve_quest quest_id user_id approved w in
  (is_Some r.1 ↔
     ∃ p, quest_progress (database w) !! progress_key user_id quest_id = Some p
          ∧ QuestProgress.status p = QuestStatus.COMPLETED)
  ∧ (r.1 = None → r.2 = w)
  ∧ (∀ p', r.1 = Some p' →
       QuestProgress.status p'
         = (if approved then QuestStatus.APPROVED else QuestStatus.REJECTED)
       ∧ QuestProgress.approval_status p' = QuestProgress.status p'
       ∧ (progress_keyed (database w) →
          quest_progress (database r.2) !! progress_key user_id quest_id
            = Some p')
       ∧ ∃ p, quest_progress (database w) !! progress_key user_id quest_id
                = Some p
          ∧ p' = QuestProgress.set_decision p (QuestProgress.status p')
                   (QuestProgress.status p')
          ∧ database r.2
            = {| quests := quests (database w);
                 quest_progress :=
                   <[progress_key (QuestProgress.user_id p)
                                  (QuestProgress.quest_id p) := p']>
                     (quest_progress (database w));
                 user_stats := user_stats (database w) |}).
Proof.
  intros r. subst r.
  unfold QuestManager.approve_quest, JSONDatabase.get_user_quest_progress,
    JSONDatabase.save_quest_progress, mbind, M_bind, mret, M_ret, get_db,
    put_db.
  simpl.
  destruct (quest_progress (database w) !! _) as [p|] eqn:Hp; simpl.
  - destruct (String.eqb_spec (QuestProgress.status p) QuestStatus.COMPLETED)
      as [Hst|Hst]; simpl.
    + split; [split; eauto|]. split; [done|].
      intros p' [= <-].
      destruct approved; simpl; (split; [done|]); (split; [done|]);
        (split; [intros Hk; rewrite <- (Hk _ _ Hp); apply lookup_insert_eq|]);
        eauto.
    + split; [|split; [done|done]]. split.
      * by intros [? ?].
      * intros (p0 & [= <-] & ?). done.
  - split; [|split; [done|done]]. split.
    + by intros [? ?].
    + by intros (p0 & ? & ?).
Qed.

(** ** The required roles *)

Lemma truthy_true {A} (l : list A) : truthy l = true ↔ l ≠ [].
Proof. destruct l; simpl; split; intros; done. Qed.

Lemma user_has_required_roles_spec (l required : list Z) :
  permissions.user_has_required_roles (QuestManager.duck_user l) required
    = true
  ↔ required = [] ∨ ∃ role, role ∈ required ∧ role ∈ l.
Proof.
  unfold permissions.user_has_required_roles, QuestManager.duck_user. simpl.
  rewrite <- list_fmap_compose.
  assert ((permissions.id ∘ permissions.mkRole) <$> l = l) as ->.
  { induction l as [|a l IH]; [done|]. by rewrite fmap_cons, IH. }
  destruct required as [|r0 required]; simpl; [intuition|].
  change (bool_decide (r0 ∈ l)
          || existsb (λ role_id, bool_decide (role_id ∈ l)) required)
    with (existsb (λ role_id, bool_decide (role_id ∈ l)) (r0 :: required)).
  rewrite existsb_exists. split.
  - intros (role & Hin & Hl). right. exists role.
    apply list_elem_of_In in Hin. by apply bool_decide_eq_true in Hl.
  - intros [|(role & Hin & Hl)]; [done|]. exists role.
    apply list_elem_of_In in Hin. by rewrite bool_decide_eq_true.
Qed.

Lemma lacks_required_roles_spec (q : Quest.t) (l : list Z) :
  Quest.required_role_ids q ≠ [] → l ≠ [] →
  QuestManager.lacks_required_roles q (Some l) = true
  ↔ ∀ role, role ∈ Quest.required_role_ids q → role ∉ l.
Proof.
  intros Hreq Hl. unfold QuestManager.lacks_required_roles. simpl.
  apply truthy_true in Hreq, Hl. rewrite Hreq, Hl. simpl.
  rewrite negb_true_iff, <- not_true_iff_false, user_has_required_roles_spec.
  apply truthy_true in Hreq. split.
  - intros Hno role Hin Hrole. apply Hno. eauto.
  - intros Hno [|(role & Hin & Hrole)]; [done|]. by apply (Hno role).
Qed.

(** C5, as amended.  For a quest with required roles, a caller whose list
    of roles is not empty, and a call that the earlier checks let through:
    when the caller holds one of the required roles the role check answers
    yes and the call succeeds; when the caller holds none the call answers
    [MissingRole] and changes nothing. *)
Theorem required_roles_any_of (w : World) (quest_id : string) (user_id : Z)
    (caller_roles : list Z) (accepted_channel_id : option Z) (q : Quest.t) :
  quests (database w) !! quest_id = Some q →
  Quest.status q = QuestStatus.AVAILABLE →
  unblocked w user_id quest_id →
  Quest.required_role_ids q ≠ [] →
  caller_roles ≠ [] →
  let r := QuestManager.accept_quest quest_id user_id (Some caller_roles)
             accepted_channel_id w in
  ((∃ role, role ∈ Quest.required_role_ids q ∧ role ∈ caller_roles) →
     permissions.user_has_required_roles (QuestManager.duck_user caller_roles)
       (Quest.required_role_ids q) = true
     ∧ ∃ p, r.1 = (Some p, EmptyString)
         ∧ QuestProgress.status p = QuestStatus.ACCEPTED
         ∧ quest_progress (database r.2) !! progress_key user_id quest_id
             = Some p)
  ∧ ((∀ role, role ∈ Quest.required_role_ids q → role ∉ caller_roles) →
     r.1 = (None, QuestManager.MissingRole)
     ∧ database r.2 = database w).
Proof.
  intros Hq Hst Hu Hreq Hl r. subst r.
  rewrite (accept_quest_unblocked _ _ _ _ _ q), accept_quest_tail_run by done.
  pose proof (lacks_required_roles_spec q caller_roles Hreq Hl) as Hspec.
  split.
  - intros Hex. split; [apply user_has_required_roles_spec; by right|].
    destruct (QuestManager.lacks_required_roles q (Some caller_roles)).
    + destruct Hex as (role & Hin & Hrole).
      by destruct (proj1 Hspec eq_refl role Hin).
    + eexists. split; [done|]. split; [done|]. simpl. apply lookup_insert_eq.
  - intros Hno. rewrite (proj2 Hspec Hno). simpl.
    split; [done|]. apply after_checks_database.
Qed.

(** C10.  A call that the earlier checks let through and that gives the
    empty list of caller roles succeeds with a new "accepted" record,
    whatever roles the quest requires. *)
Theorem empty_caller_roles_skip_check (w : World) (quest_id : string)
    (user_id : Z) (accepted_channel_id : option Z) (q : Quest.t) :
  quests (database w) !! quest_id = Some q →
  Quest.status q = QuestStatus.AVAILABLE →
  unblocked w user_id quest_id →
  let r := QuestManager.accept_quest quest_id user_id (Some [])
             accepted_channel_id w in
  ∃ p, r.1 = (Some p, EmptyString)
    ∧ QuestProgress.status p = QuestStatus.ACCEPTED
    ∧ QuestProgress.user_id p = user_id
    ∧ QuestProgress.quest_id p = quest_id
    ∧ quest_progress (database r.2) !! progress_key user_id quest_id = Some p.
Proof.
  intros Hq Hst Hu r. subst r.
  rewrite (accept_quest_unblocked _ _ _ _ _ q), accept_quest_tail_run by done.
  assert (QuestManager.lacks_required_roles q (Some []) = false) as ->.
  { unfold QuestManager.lacks_required_roles. simpl.
    by rewrite andb_false_r. }
  eexists. split; [done|]. simpl. repeat split. apply lookup_insert_eq.
Qed.

Lemma required_roles_any_of_witness :
  (QuestManager.accept_quest "q1" 5 (Some [8%Z]) None
     (demo_world (demo_db [7%Z] []) 0)).1
  = (None, QuestManager.MissingRole).
Proof.
  pose proof (required_roles_any_of (demo_world (demo_db [7%Z] []) 0)
                "q1" 5 [8%Z] None (demo_quest [7%Z])) as H.
  do 2 (lapply H; [clear H; intros H|vm_compute; reflexivity]).
  lapply H; [clear H; intros H|vm_compute; exact I].
  do 2 (lapply H; [clear H; intros H|discriminate]).
  destruct H as [_ H]. apply H.
  intros role Hin Hrole.
  apply list_elem_of_singleton in Hin, Hrole. congruence.
Defined.

(** C5 as stated fails: the quest requires the role 7 and the caller gives
    a list of roles, the empty one, so holds none of the required roles; the
    call succeeds. *)
Lemma required_roles_counterexample :
  let w := demo_world (demo_db [7%Z] []) 0 in
  let r := QuestManager.accept_quest "q1" 5 (Some []) None w in
  (Quest.required_role_ids <$> quests (database w) !! "q1") = Some [7%Z]
  ∧ (∀ role : Z, role ∈ [7%Z] → role ∉ @nil Z)
  ∧ r.1.2 ≠ QuestManager.MissingRole
  ∧ (QuestProgress.status <$> r.1.1) = Some QuestStatus.ACCEPTED.
Proof.
  vm_compute. split; [reflexivity|]. split; [|split; [discriminate|reflexivity]].
  intros role _ Hin. inversion Hin.
Qed.

Lemma empty_caller_roles_skip_check_witness :
  ∃ p, (QuestManager.accept_quest "q1" 5 (Some []) None
          (demo_world (demo_db [7%Z] []) 0)).1 = (Some p, EmptyString)
       ∧ QuestProgress.status p = QuestStatus.ACCEPTED.
Proof.
  pose proof (empty_caller_roles_skip_check (demo_world (demo_db [7%Z] []) 0)
                "q1" 5 None (demo_quest [7%Z])) as H.
  do 2 (lapply H; [clear H; intros H|vm_compute; reflexivity]).
  lapply H; [clear H; intros H|vm_compute; exact I].
  destruct H as (p & H1 & H2 & _). exists p. by split.
Defined.

(** ** The quest record and the other users *)

Lemma accept_quest_quests w quest_id user_id user_role_ids ch :
  quests (database
            (QuestManager.accept_quest quest_id user_id user_role_ids ch w).2)
  = quests (database w).
Proof.
  mrun. destruct (quests (database w) !! quest_id) as [q|]; [|done].
  destruct (negb _); [done|].
  destruct (quest_progress (database w) !! _) as [p|];
    repeat (case_match; simpl; try done).
Qed.

Lemma accept_quest_others w quest_id user_id user_role_ids ch k :
  k ≠ progress_key user_id quest_id →
  quest_progress
    (database
       (QuestManager.accept_quest quest_id user_id user_role_ids ch w).2) !! k
  = quest_progress (database w) !! k.
Proof.
  intros Hk. mrun. destruct (quests (database w) !! quest_id) as [q|]; [|done].
  destruct (negb _); [done|].
  destruct (quest_progress (database w) !! progress_key _ _) as [p|];
    repeat (case_match; simpl; try done); by rewrite lookup_insert_ne.
Qed.

Lemma complete_quest_quests w quest_id user_id text urls :
  quests (database (QuestManager.complete_quest quest_id user_id text urls w).2)
  = quests (database w).
Proof. mrun. repeat (case_match; simpl; try done). Qed.

Lemma complete_quest_others w quest_id user_id text urls k :
  progress_keyed (database w) →
  k ≠ progress_key user_id quest_id →
  quest_progress
    (database (QuestManager.complete_quest quest_id user_id text urls w).2) !! k
  = quest_progress (database w) !! k.
Proof.
  intros Hkeyed Hk. mrun.
  destruct (quest_progress (database w) !! progress_key _ _) as [p|] eqn:Hp;
    [|done].
  destruct (negb _); [done|]. simpl.
  rewrite <- (Hkeyed _ _ Hp). by rewrite lookup_insert_ne.
Qed.

Lemma approve_quest_quests w quest_id user_id approved :
  quests (database (QuestManager.approve_quest quest_id user_id approved w).2)
  = quests (database w).
Proof. mrun. repeat (case_match; simpl; try done). Qed.

Lemma approve_quest_others w quest_id user_id approved k :
  progress_keyed (database w) →
  k ≠ progress_key user_id quest_id →
  quest_progress
    (database (QuestManager.approve_quest quest_id user_id approved w).2) !! k
  = quest_progress (database w) !! k.
Proof.
  intros Hkeyed Hk. mrun.
  destruct (quest_progress (database w) !! progress_key _ _) as [p|] eqn:Hp;
    [|done].
  destruct (negb _); [done|]. simpl.
  destruct approved; simpl; rewrite <- (Hkeyed _ _ Hp);
    by rewrite lookup_insert_ne.
Qed.

Lemma create_quest_stored w title description creator_id guild_id
    requirements reward rank required_role_ids category :
  let r := QuestManager.create_quest title description creator_id guild_id
             requirements reward rank required_role_ids category w in
  Quest.status r.1 = QuestStatus.AVAILABLE
  ∧ quests (database r.2) !! Quest.quest_id r.1 = Some r.1
  ∧ quest_progress (database r.2) = quest_progress (database w).
Proof.
  intros r. subst r. mrun. split; [done|]. split; [|done].
  apply lookup_insert_eq.
Qed.

Lemma progress_key_ne user_id user_id' quest_id :
  user_id ≠ user_id' →
  progress_key user_id' quest_id ≠ progress_key user_id quest_id.
Proof. intros Hne Heq. apply progress_key_inj in Heq as [? _]. done. Qed.

Lemma accept_quest_fresh w quest_id user_id user_role_ids ch q :
  quests (database w) !! quest_id = Some q →
  Quest.status q = QuestStatus.AVAILABLE →
  quest_progress (database w) !! progress_key user_id quest_id = None →
  QuestManager.lacks_required_roles q user_role_ids = false →
  ∃ p w',
    QuestManager.accept_quest quest_id user_id user_role_ids ch w
      = (Some p, EmptyString, w')
    ∧ QuestProgress.status p = QuestStatus.ACCEPTED
    ∧ quests (database w') = quests (database w)
    ∧ quest_progress (database w')
      = <[progress_key user_id quest_id := p]> (quest_progress (database w)).
Proof.
  intros Hq Hst Hp Hroles.
  rewrite (accept_quest_unblocked _ _ _ _ _ q), accept_quest_tail_run, Hroles;
    [|done|done|by unfold unblocked; rewrite Hp].
  unfold after_checks. rewrite Hp. eauto 10.
Qed.

Lemma complete_quest_accepted w quest_id user_id text urls p :
  quest_progress (database w) !! progress_key user_id quest_id = Some p →
  QuestProgress.status p = QuestStatus.ACCEPTED →
  ∃ p' w',
    QuestManager.complete_quest quest_id user_id text urls w = (Some p', w')
    ∧ QuestProgress.status p' = QuestStatus.COMPLETED
    ∧ quests (database w') = quests (database w)
    ∧ quest_progress (database w')
      = <[progress_key (QuestProgress.user_id p) (QuestProgress.quest_id p)
          := p']> (quest_progress (database w)).
Proof.
  intros Hp Hst. mrun. rewrite Hp, Hst. simpl. eauto 10.
Qed.

Lemma two_users_same_quest w quest_id user_id other q roles1 roles2 ch1 ch2
    text1 urls1 text2 urls2 :
  other ≠ user_id →
  quests (database w) !! quest_id = Some q →
  Quest.status q = QuestStatus.AVAILABLE →
  quest_progress (database w) !! progress_key user_id quest_id = None →
  quest_progress (database w) !! progress_key other quest_id = None →
  QuestManager.lacks_required_roles q roles1 = false →
  QuestManager.lacks_required_roles q roles2 = false →
  let r1 := QuestManager.accept_quest quest_id user_id roles1 ch1 w in
  let r2 := QuestManager.accept_quest quest_id other roles2 ch2 r1.2 in
  let r3 := QuestManager.complete_quest quest_id user_id text1 urls1 r2.2 in
  let r4 := QuestManager.complete_quest quest_id other text2 urls2 r3.2 in
  is_Some r1.1.1 ∧ is_Some r2.1.1 ∧ is_Some r3.1 ∧ is_Some r4.1.
Proof.
  intros Hne Hq Hst Hp1 Hp2 Hr1 Hr2.
  pose proof (progress_key_ne user_id other quest_id (not_eq_sym Hne)) as Hk.
  destruct (accept_quest_fresh w quest_id user_id roles1 ch1 q)
    as (p1 & w1 & E1 & Hs1 & Hq1 & Hm1); [done..|].
  intros r1. subst r1. rewrite E1. simpl.
  destruct (accept_quest_fresh w1 quest_id other roles2 ch2 q)
    as (p2 & w2 & E2 & Hs2 & Hq2 & Hm2); [by rewrite Hq1|done| |done|].
  { by rewrite Hm1, lookup_insert_ne. }
  rewrite E2. simpl.
  assert (QuestProgress.user_id p1 = user_id
          ∧ QuestProgress.quest_id p1 = quest_id) as [Hu1 Hi1].
  { assert ((QuestManager.accept_quest quest_id user_id roles1 ch1 w).1.1
            = Some p1) as H by (by rewrite E1).
    by apply accept_quest_Some in H as (? & ? & ? & ? & ? & ?). }
  destruct (complete_quest_accepted w2 quest_id user_id text1 urls1 p1)
    as (p3 & w3 & E3 & Hs3 & Hq3 & Hm3); [|done|].
  { rewrite Hm2, lookup_insert_ne, Hm1 by done. apply lookup_insert_eq. }
  rewrite E3. simpl.
  destruct (complete_quest_accepted w3 quest_id other text2 urls2 p2)
    as (p4 & w4 & E4 & _); [|done|].
  { rewrite Hm3, Hu1, Hi1, lookup_insert_ne, Hm2 by done.
    apply lookup_insert_eq. }
  rewrite E4. simpl. eauto.
Qed.
(** C7.  [create_quest] stores the quest with status "available"; accepting,
    completing and deciding leave every quest record as it was; in a store
    whose keys are those of the records they also leave the record of every
    other user of the quest as it was; and two users who have no record of
    an available quest can both accept it and then both complete it. *)
Theorem quest_record_is_never_modified (w : World) (quest_id : string)
    (user_id : Z) :
  (∀ title description creator_id guild_id requirements reward rank
     required_role_ids category,
     let r := QuestManager.create_quest title description creator_id guild_id
                requirements reward rank required_role_ids category w in
     Quest.status r.1 = QuestStatus.AVAILABLE
     ∧ quests (database r.2) !! Quest.quest_id r.1 = Some r.1)
  ∧ (∀ user_role_ids ch,
       quests (database (QuestManager.accept_quest quest_id user_id
                           user_role_ids ch w).2) = quests (database w))
  ∧ (∀ text urls,
       quests (database (QuestManager.complete_quest quest_id user_id
                           text urls w).2) = quests (database w))
  ∧ (∀ approved,
       quests (database (QuestManager.approve_quest quest_id user_id
                           approved w).2) = quests (database w))
  ∧ (progress_keyed (database w) →
     ∀ other : Z, other ≠ user_id →
       let k := progress_key other quest_id in
       (∀ user_role_ids ch,
          quest_progress (database (QuestManager.accept_quest quest_id user_id
                                      user_role_ids ch w).2) !! k
          = quest_progress (database w) !! k)
       ∧ (∀ text urls,
            quest_progress (database (QuestManager.complete_quest quest_id
                                        user_id text urls w).2) !! k
            = quest_progress (database w) !! k)
       ∧ (∀ approved,
            quest_progress (database (QuestManager.approve_quest quest_id
                                        user_id approved w).2) !! k
            = quest_progress (database w) !! k))
  ∧ (∀ other q roles1 roles2 ch1 ch2 text1 urls1 text2 urls2,
       other ≠ user_id →
       quests (database w) !! quest_id = Some q →
       Quest.status q = QuestStatus.AVAILABLE →
       quest_progress (database w) !! progress_key user_id quest_id = None →
       quest_progress (database w) !! progress_key other quest_id = None →
       QuestManager.lacks_required_roles q roles1 = false →
       QuestManager.lacks_required_roles q roles2 = false →
       let r1 := QuestManager.accept_quest quest_id user_id roles1 ch1 w in
       let r2 := QuestManager.accept_quest quest_id other roles2 ch2 r1.2 in
       let r3 :=
         QuestManager.complete_quest quest_id user_id text1 urls1 r2.2 in
       let r4 := QuestManager.complete_quest quest_id other text2 urls2 r3.2 in
       is_Some r1.1.1 ∧ is_Some r2.1.1 ∧ is_Some r3.1 ∧ is_Some r4.1).
Proof.
  split; [|split; [|split; [|split; [|split]]]].
  - intros. by destruct (create_quest_stored w title description creator_id
      guild_id requirements reward rank required_role_ids category)
      as (? & ? & _).
  - intros. apply accept_quest_quests.
  - intros. apply complete_quest_quests.
  - intros. apply approve_quest_quests.
  - intros Hkeyed other Hne k. subst k.
    pose proof (progress_key_ne _ _ quest_id (not_eq_sym Hne)) as Hk.
    split; [|split]; intros.
    + by apply accept_quest_others.
    + by apply complete_quest_others.
    + by apply approve_quest_others.
  - intros. by apply two_users_same_quest with q.
Qed.

Lemma quest_record_is_never_modified_witness :
  quests (database
            (QuestManager.accept_quest "q1" 5 None None
               (demo_world (demo_db [] []) 0)).2)
  = quests (demo_db [] []).
Proof.
  exact (proj1 (proj2 (quest_record_is_never_modified
                         (demo_world (demo_db [] []) 0) "q1" 5)) None None).
Defined.

(** ** Deleting a quest *)

Lemma delete_quest_run w quest_id :
  QuestManager.delete_quest quest_id w
  = (true,
     if bool_decide (is_Some (quests (database w) !! quest_id)) then
       {| database :=
            {| quests := delete quest_id (quests (database w));
               quest_progress :=
                 foldr delete (quest_progress (database w))
                   (JSONDatabase.to_remove quest_id
                      (quest_progress (database w)));
               user_stats := user_stats (database w) |};
          clock := clock w; ticks := ticks w;
          uuid_pool := uuid_pool w; draws := draws w |}
     else w).
Proof. mrun. by case_bool_decide. Qed.

Lemma lookup_after_delete_quest w quest_id k :
  quest_progress (database (QuestManager.delete_quest quest_id w).2) !! k
  = if bool_decide (is_Some (quests (database w) !! quest_id)) then
      match quest_progress (database w) !! k with
      | Some p =>
          if bool_decide (QuestProgress.quest_id p = quest_id)
          then None else Some p
      | None => None
      end
    else quest_progress (database w) !! k.
Proof.
  rewrite delete_quest_run. simpl. case_bool_decide; [|done]. simpl.
  rewrite lookup_foldr_delete.
  destruct (quest_progress (database w) !! k) as [p|] eqn:Hp.
  - case_bool_decide as Hq.
    + rewrite decide_True; [done|]. apply elem_of_to_remove. eauto.
    + rewrite decide_False; [done|]. rewrite elem_of_to_remove.
      intros (p' & Hp' & Hq'). congruence.
  - by case_decide.
Qed.

(** C8.  In a store whose progress records are filed under their own keys
    and name quests of the store, [delete_quest] reports success, removes
    the quest and every progress record that names it, so that afterwards
    the quest and the progress of every user on it are absent, keeps every
    other quest and progress record, and changes nothing at all when the
    quest is not there. *)
Theorem delete_quest_cascades (w : World) (quest_id : string) :
  progress_keyed (database w) →
  progress_refers (database w) →
  let r := QuestManager.delete_quest quest_id w in
  r.1 = true
  ∧ (JSONDatabase.get_quest quest_id r.2).1 = None
  ∧ (∀ k p, quest_progress (database r.2) !! k = Some p →
       QuestProgress.quest_id p ≠ quest_id)
  ∧ (∀ user_id,
       (JSONDatabase.get_user_quest_progress user_id quest_id r.2).1 = None)
  ∧ (∀ k p, quest_progress (database w) !! k = Some p →
       QuestProgress.quest_id p ≠ quest_id →
       quest_progress (database r.2) !! k = Some p)
  ∧ (∀ k, k ≠ quest_id →
       quests (database r.2) !! k = quests (database w) !! k)
  ∧ (quests (database w) !! quest_id = None → r = (true, w)).
Proof.
  intros Hkeyed Hrefers r.
  assert (∀ k p, quest_progress (database r.2) !! k = Some p →
            QuestProgress.quest_id p ≠ quest_id) as Hgone.
  { intros k p. subst r. rewrite lookup_after_delete_quest.
    case_bool_decide as Hq.
    - destruct (quest_progress (database w) !! k) as [p'|]; [|done].
      case_bool_decide; [done|]. by intros [= <-].
    - intros Hp <-. apply Hq. by apply (Hrefers k). }
  assert (progress_keyed (database r.2)) as Hkeyed'.
  { intros k p' Hp'. subst r. rewrite lookup_after_delete_quest in Hp'.
    apply Hkeyed. repeat case_match; simplify_eq; done. }
  split; [by subst r; rewrite delete_quest_run|].
  split.
  { subst r. rewrite delete_quest_run.
    unfold JSONDatabase.get_quest, mbind, M_bind, mret, M_ret, get_db. simpl.
    case_bool_decide as Hq; simpl.
    - apply lookup_delete_eq.
    - by apply eq_None_not_Some. }
  split; [done|]. split.
  { intros user_id.
    unfold JSONDatabase.get_user_quest_progress, mbind, M_bind, mret, M_ret,
      get_db. simpl.
    destruct (quest_progress (database r.2) !! progress_key user_id quest_id)
      as [p|] eqn:Hp; [|done].
    exfalso. apply (Hgone _ _ Hp).
    apply Hkeyed' in Hp. by apply progress_key_inj in Hp as [_ <-]. }
  split.
  { intros k p Hp Hne. subst r. rewrite lookup_after_delete_quest, Hp.
    case_bool_decide; [|done]. by rewrite bool_decide_false. }
  split.
  { intros k Hne. subst r. rewrite delete_quest_run. simpl.
    case_bool_decide; [|done]. simpl. by rewrite lookup_delete_ne. }
  intros Hq. subst r. rewrite delete_quest_run.
  rewrite bool_decide_false; [done|]. rewrite Hq. by intros [? ?].
Qed.

(** ** The stores the program builds are consistent *)

Lemma accept_quest_None w quest_id user_id user_role_ids ch :
  (QuestManager.accept_quest quest_id user_id user_role_ids ch w).1.1 = None →
  database (QuestManager.accept_quest quest_id user_id user_role_ids ch w).2
  = database w.
Proof.
  mrun. destruct (quests (database w) !! quest_id) as [q|]; [|done].
  destruct (negb _); [done|].
  destruct (quest_progress (database w) !! _) as [p|];
    repeat (case_match; simpl; try done).
Qed.

Lemma complete_quest_cases w quest_id user_id text urls :
  let r := QuestManager.complete_quest quest_id user_id text urls w in
  r = (None, w)
  ∨ ∃ p p',
      quest_progress (database w) !! progress_key user_id quest_id = Some p
      ∧ QuestProgress.user_id p' = QuestProgress.user_id p
      ∧ QuestProgress.quest_id p' = QuestProgress.quest_id p
      ∧ database r.2
        = {| quests := quests (database w);
             quest_progress :=
               <[progress_key (QuestProgress.user_id p)
                              (QuestProgress.quest_id p) := p']>
                 (quest_progress (database w));
             user_stats := user_stats (database w) |}.
Proof.
  intros r. subst r. mrun.
  destruct (quest_progress (database w) !! _) as [p|]; [|by left].
  destruct (negb _); [by left|]. right. simpl.
  do 2 eexists. split; [done|]. split; [|split]; [| |reflexivity]; done.
Qed.

Lemma approve_quest_cases w quest_id user_id approved :
  let r := QuestManager.approve_quest quest_id user_id approved w in
  r = (None, w)
  ∨ ∃ p p',
      quest_progress (database w) !! progress_key user_id quest_id = Some p
      ∧ QuestProgress.user_id p' = QuestProgress.user_id p
      ∧ QuestProgress.quest_id p' = QuestProgress.quest_id p
      ∧ database r.2
        = {| quests := quests (database w);
             quest_progress :=
               <[progress_key (QuestProgress.user_id p)
                              (QuestProgress.quest_id p) := p']>
                 (quest_progress (database w));
             user_stats := user_stats (database w) |}.
Proof.
  intros r. subst r. mrun.
  destruct (quest_progress (database w) !! _) as [p|]; [|by left].
  destruct (negb _); [by left|]. right. simpl.
  destruct approved; do 2 eexists; (split; [done|]);
    (split; [|split]; [| |reflexivity]; done).
Qed.

Lemma consistent_init : consistent init.
Proof.
  split; [|split]; intros k x; simpl.
  - by rewrite lookup_empty.
  - by rewrite lookup_empty.
  - intros H. inversion H.
Qed.

Lemma consistent_same db db' :
  quests db' = quests db → quest_progress db' = quest_progress db →
  user_stats db' = user_stats db → consistent db → consistent db'.
Proof.
  unfold consistent, progress_keyed, progress_refers, stats_keyed.
  by intros -> -> ->.
Qed.

Lemma consistent_replace db p p' qs :
  consistent db →
  quest_progress db
    !! progress_key (QuestProgress.user_id p) (QuestProgress.quest_id p)
    = Some p →
  QuestProgress.user_id p' = QuestProgress.user_id p →
  QuestProgress.quest_id p' = QuestProgress.quest_id p →
  qs = quests db →
  consistent
    {| quests := qs;
       quest_progress :=
         <[progress_key (QuestProgress.user_id p) (QuestProgress.quest_id p)
           := p']> (quest_progress db);
       user_stats := user_stats db |}.
Proof.
  intros (Hk & Hr & Hs) Hp Hu Hq ->. split; [|split]; [| |done].
  - intros k x. simpl. rewrite lookup_insert_Some.
    intros [[<- <-]|[_ Hx]]; [congruence|by apply Hk].
  - intros k x. simpl. rewrite lookup_insert_Some.
    intros [[<- <-]|[_ Hx]]; [|by apply (Hr k)].
    rewrite Hq. by apply (Hr _ _ Hp).
Qed.

(** ** The statistics counters *)

Lemma stats_keyed_set db s :
  stats_keyed db →
  ∀ k x, (k, x) ∈ dict_set (stats_key (UserStats.user_id s)
                                      (UserStats.guild_id s)) s (user_stats db) →
    k = stats_key (UserStats.user_id x) (UserStats.guild_id x).
Proof.
  intros Hs k x Hin. apply elem_of_dict_set in Hin as [[= -> ->]|Hin]; [done|].
  by apply Hs.
Qed.

Lemma update_with_spec change user_id guild_id w :
  keeps_pair change →
  stats_keyed (database w) →
  let db' := database (update_with change user_id guild_id w).2 in
  (∃ s t,
     counters (database w) user_id guild_id
       = (UserStats.quests_completed s, UserStats.quests_accepted s,
          UserStats.quests_rejected s)
     ∧ dict_get (stats_key user_id guild_id) (user_stats db')
       = Some (change s t))
  ∧ (∀ k, k ≠ stats_key user_id guild_id →
       dict_get k (user_stats db') = dict_get k (user_stats (database w)))
  ∧ quests db' = quests (database w)
  ∧ quest_progress db' = quest_progress (database w)
  ∧ stats_keyed db'.
Proof.
  intros Hchange Hkeyed db'. subst db'. unfold update_with, counters.
  mrun.
  destruct (dict_get (stats_key user_id guild_id) (user_stats (database w)))
    as [s|] eqn:Hs; simpl.
  - destruct (Hchange s (clock w (ticks w))) as [Hu Hg].
    assert (stats_key user_id guild_id
            = stats_key (UserStats.user_id s) (UserStats.guild_id s)) as Hk.
    { apply Hkeyed. by apply dict_get_elem_of. }
    rewrite Hu, Hg, <- Hk. split; [|split; [|split; [done|split; [done|]]]].
    + exists s, (clock w (ticks w)). split; [done|]. apply dict_get_set_eq.
    + intros k Hne. by apply dict_get_set_ne.
    + intros k x Hin. simpl in Hin.
      apply elem_of_dict_set in Hin as [[= -> ->]|Hin]; [|by apply Hkeyed].
      by rewrite Hu, Hg.
  - set (s := {| UserStats.user_id := user_id |}).
    destruct (Hchange s (clock w (S (S (ticks w))))) as [Hu Hg].
    rewrite Hu, Hg. simpl.
    split; [|split; [|split; [done|split; [done|]]]].
    + exists s, (clock w (S (S (ticks w)))). split; [done|].
      apply dict_get_set_eq.
    + intros k Hne. by rewrite !dict_get_set_ne.
    + intros k x Hin. simpl in Hin.
      apply elem_of_dict_set in Hin as [[= -> ->]|Hin]; [by rewrite Hu, Hg|].
      apply elem_of_dict_set in Hin as [[= -> ->]|Hin]; [done|].
      by apply Hkeyed.
Qed.

Lemma update_quest_accepted_with u g :
  UserStatsManager.update_quest_accepted u g = update_with add_accepted u g.
Proof. reflexivity. Qed.

Lemma update_quest_completed_with u g :
  UserStatsManager.update_quest_completed u g = update_with add_completed u g.
Proof. reflexivity. Qed.

Lemma update_quest_rejected_with u g :
  UserStatsManager.update_quest_rejected u g = update_with add_rejected u g.
Proof. reflexivity. Qed.

Lemma keeps_pair_add :
  keeps_pair add_accepted ∧ keeps_pair add_completed ∧ keeps_pair add_rejected.
Proof. by repeat split. Qed.

Lemma counters_other change user_id guild_id w u g :
  keeps_pair change → stats_keyed (database w) →
  (u, g) ≠ (user_id, guild_id) →
  counters (database (update_with change user_id guild_id w).2) u g
  = counters (database w) u g.
Proof.
  intros Hc Hk Hne.
  destruct (update_with_spec change user_id guild_id w Hc Hk)
    as (_ & Hother & _).
  unfold counters. rewrite Hother; [done|].
  intros Heq. apply stats_key_inj in Heq as [-> ->]. done.
Qed.

(** A recording method leaves no counter of any pair smaller, as long as the
    change it makes leaves none smaller. *)
Lemma counters_le_update change user_id guild_id w u g :
  keeps_pair change → stats_keyed (database w) →
  (∀ s t, (UserStats.quests_completed s
             <= UserStats.quests_completed (change s t)
           ∧ UserStats.quests_accepted s
             <= UserStats.quests_accepted (change s t)
           ∧ UserStats.quests_rejected s
             <= UserStats.quests_rejected (change s t))%Z) →
  counters_le (counters (database w) u g)
    (counters (database (update_with change user_id guild_id w).2) u g).
Proof.
  intros Hc Hk Hle.
  destruct (decide ((u, g) = (user_id, guild_id))) as [[= -> ->]|Hne].
  - destruct (update_with_spec change user_id guild_id w Hc Hk)
      as ((s & t & Hbefore & Hafter) & _).
    rewrite Hbefore. unfold counters at 1. rewrite Hafter.
    unfold counters_le. simpl. apply Hle.
  - rewrite counters_other by done. unfold counters_le. lia.
Qed.

Lemma consistent_run_call c w :
  consistent (database w) → consistent (database (run_call c w)).
Proof.
  intros Hcons. destruct c; simpl.
  - (* create_quest *)
    destruct Hcons as (Hk & Hr & Hs). mrun.
    split; [done|]. split; [|done].
    intros k p Hp. simpl. apply lookup_insert_is_Some'. right. by apply (Hr k).
  - (* accept_quest *)
    destruct (QuestManager.accept_quest quest_id user_id user_role_ids
                accepted_channel_id w).1.1 as [p|] eqn:Hres.
    + apply accept_quest_Some in Hres
        as (q & Hq & _ & Hqid & Huid & _ & _ & ->).
      destruct Hcons as (Hk & Hr & Hs). split; [|split]; [| |done].
      * rewrite <- Hqid, <- Huid. by apply progress_keyed_insert.
      * intros k x. simpl. rewrite lookup_insert_Some.
        intros [[_ <-]|[_ Hx]]; [by rewrite Hqid, Hq|by apply (Hr k)].
    + by rewrite accept_quest_None.
  - (* complete_quest *)
    destruct (complete_quest_cases w quest_id user_id proof_text
                proof_image_urls) as [->|(p & p' & Hp & Hu & Hq & ->)]; [done|].
    apply consistent_replace; try done.
    destruct Hcons as (Hk & _). by rewrite <- (Hk _ _ Hp).
  - (* approve_quest *)
    destruct (approve_quest_cases w quest_id user_id approved)
      as [->|(p & p' & Hp & Hu & Hq & ->)]; [done|].
    apply consistent_replace; try done.
    destruct Hcons as (Hk & _). by rewrite <- (Hk _ _ Hp).
  - (* delete_quest *)
    destruct Hcons as (Hk & Hr & Hs).
    pose proof (lookup_after_delete_quest w quest_id) as Hl.
    split; [|split].
    + intros k p Hp. rewrite Hl in Hp. apply Hk.
      repeat case_match; simplify_eq; done.
    + intros k p Hp. rewrite Hl in Hp.
      rewrite delete_quest_run. simpl.
      case_bool_decide; [|by apply (Hr k)]. simpl.
      destruct (quest_progress (database w) !! k) as [p'|] eqn:Hp'; [|done].
      case_bool_decide; [done|]. simplify_eq.
      rewrite lookup_delete_ne by done. by apply (Hr k).
    + rewrite delete_quest_run. by case_bool_decide.
  - (* update_quest_accepted *)
    rewrite update_quest_accepted_with.
    destruct Hcons as (Hk & Hr & Hs).
    destruct (update_with_spec add_accepted user_id guild_id w
                (proj1 keeps_pair_add) Hs) as (_ & _ & Hq & Hp & Hs').
    split; [|split]; [| |done]; unfold progress_keyed, progress_refers;
      by rewrite ?Hq, Hp.
  - rewrite update_quest_completed_with.
    destruct Hcons as (Hk & Hr & Hs).
    destruct (update_with_spec add_completed user_id guild_id w
                (proj1 (proj2 keeps_pair_add)) Hs) as (_ & _ & Hq & Hp & Hs').
    split; [|split]; [| |done]; unfold progress_keyed, progress_refers;
      by rewrite ?Hq, Hp.
  - rewrite update_quest_rejected_with.
    destruct Hcons as (Hk & Hr & Hs).
    destruct (update_with_spec add_rejected user_id guild_id w
                (proj2 (proj2 keeps_pair_add)) Hs) as (_ & _ & Hq & Hp & Hs').
    split; [|split]; [| |done]; unfold progress_keyed, progress_refers;
      by rewrite ?Hq, Hp.
Qed.

Lemma consistent_run_calls cs w :
  consistent (database w) → consistent (database (run_calls cs w)).
Proof.
  revert w. induction cs as [|c cs IH]; intros w Hc; [done|].
  simpl. apply IH. by apply consistent_run_call.
Qed.

(** Every store built from the empty one by calls of the entry points is
    consistent. *)
Lemma reachable_consistent cs w :
  database w = init → consistent (database (run_calls cs w)).
Proof. intros Hw. apply consistent_run_calls. rewrite Hw. apply consistent_init. Qed.

Lemma counters_le_refl x : counters_le x x.
Proof. unfold counters_le. lia. Qed.

Lemma counters_le_trans x y z :
  counters_le x y → counters_le y z → counters_le x z.
Proof. unfold counters_le. lia. Qed.

Lemma stats_run_call c w :
  stats_keyed (database w) →
  stats_keyed (database (run_call c w))
  ∧ ∀ u g, counters_le (counters (database w) u g)
             (counters (database (run_call c w)) u g).
Proof.
  intros Hs.
  assert (user_stats (database (run_call c w)) = user_stats (database w) →
          stats_keyed (database (run_call c w))
          ∧ ∀ u g, counters_le (counters (database w) u g)
                     (counters (database (run_call c w)) u g)) as Hsame.
  { intros Heq. unfold stats_keyed, counters. rewrite Heq.
    split; [done|]. intros. apply counters_le_refl. }
  destruct c; simpl in *.
  - apply Hsame. by mrun.
  - apply Hsame.
    destruct (QuestManager.accept_quest quest_id user_id user_role_ids
                accepted_channel_id w).1.1 as [p|] eqn:Hres.
    + by apply accept_quest_Some in Hres as (q & _ & _ & _ & _ & _ & _ & ->).
    + by rewrite accept_quest_None.
  - apply Hsame.
    by destruct (complete_quest_cases w quest_id user_id proof_text
                   proof_image_urls) as [->|(p & p' & _ & _ & _ & ->)].
  - apply Hsame.
    by destruct (approve_quest_cases w quest_id user_id approved)
      as [->|(p & p' & _ & _ & _ & ->)].
  - apply Hsame. rewrite delete_quest_run. by case_bool_decide.
  - rewrite update_quest_accepted_with. split.
    + by destruct (update_with_spec add_accepted user_id guild_id w
                     (proj1 keeps_pair_add) Hs) as (_ & _ & _ & _ & ?).
    + intros. apply counters_le_update; [apply keeps_pair_add|done|].
      intros. simpl. lia.
  - rewrite update_quest_completed_with. split.
    + by destruct (update_with_spec add_completed user_id guild_id w
                     (proj1 (proj2 keeps_pair_add)) Hs) as (_ & _ & _ & _ & ?).
    + intros. apply counters_le_update; [apply keeps_pair_add|done|].
      intros. simpl. lia.
  - rewrite update_quest_rejected_with. split.
    + by destruct (update_with_spec add_rejected user_id guild_id w
                     (proj2 (proj2 keeps_pair_add)) Hs) as (_ & _ & _ & _ & ?).
    + intros. apply counters_le_update; [apply keeps_pair_add|done|].
      intros. simpl. lia.
Qed.

Lemma counters_le_run_calls cs w u g :
  stats_keyed (database w) →
  counters_le (counters (database w) u g)
    (counters (database (run_calls cs w)) u g).
Proof.
  revert w. induction cs as [|c cs IH]; intros w Hs; simpl.
  - apply counters_le_refl.
  - destruct (stats_run_call c w Hs) as [Hs' Hle].
    eapply counters_le_trans; [apply Hle|by apply IH].
Qed.

Lemma counters_update change user_id guild_id w :
  keeps_pair change → stats_keyed (database w) →
  ∃ s t,
    counters (database w) user_id guild_id
      = (UserStats.quests_completed s, UserStats.quests_accepted s,
         UserStats.quests_rejected s)
    ∧ counters (database (update_with change user_id guild_id w).2)
        user_id guild_id
      = (UserStats.quests_completed (change s t),
         UserStats.quests_accepted (change s t),
         UserStats.quests_rejected (change s t)).
Proof.
  intros Hc Hk.
  destruct (update_with_spec change user_id guild_id w Hc Hk)
    as ((s & t & Hbefore & Hafter) & _).
  exists s, t. split; [done|]. unfold counters. by rewrite Hafter.
Qed.

(** C6.  In a store whose statistics records are filed under their own
    keys, each recording method adds one to its own counter of the pair and
    leaves the two other counters of the pair, and all counters of every
    other pair, as they were; and over any sequence of calls of the entry
    points no counter of any pair ever decreases. *)
Theorem counters_increment_and_never_decrease (w : World)
    (user_id guild_id : Z) :
  stats_keyed (database w) →
  let before := counters (database w) user_id guild_id in
  let after_accepted :=
    database (UserStatsManager.update_quest_accepted user_id guild_id w).2 in
  let after_completed :=
    database (UserStatsManager.update_quest_completed user_id guild_id w).2 in
  let after_rejected :=
    database (UserStatsManager.update_quest_rejected user_id guild_id w).2 in
  counters after_accepted user_id guild_id
    = (before.1.1, before.1.2 + 1, before.2)%Z
  ∧ counters after_completed user_id guild_id
    = (before.1.1 + 1, before.1.2, before.2)%Z
  ∧ counters after_rejected user_id guild_id
    = (before.1.1, before.1.2, before.2 + 1)%Z
  ∧ (∀ u g, (u, g) ≠ (user_id, guild_id) →
       counters after_accepted u g = counters (database w) u g
       ∧ counters after_completed u g = counters (database w) u g
       ∧ counters after_rejected u g = counters (database w) u g)
  ∧ (∀ (calls : list Call) u g,
       counters_le (counters (database w) u g)
         (counters (database (run_calls calls w)) u g)).
Proof.
  intros Hs before aa ac ar. subst before aa ac ar.
  destruct keeps_pair_add as (Ha & Hc & Hr).
  split; [|split; [|split; [|split]]].
  - rewrite update_quest_accepted_with.
    destruct (counters_update add_accepted user_id guild_id w Ha Hs)
      as (s & t & -> & ->). done.
  - rewrite update_quest_completed_with.
    destruct (counters_update add_completed user_id guild_id w Hc Hs)
      as (s & t & -> & ->). done.
  - rewrite update_quest_rejected_with.
    destruct (counters_update add_rejected user_id guild_id w Hr Hs)
      as (s & t & -> & ->). done.
  - intros u g Hne.
    rewrite update_quest_accepted_with, update_quest_completed_with,
      update_quest_rejected_with.
    by rewrite !counters_other.
  - intros. by apply counters_le_run_calls.
Qed.

(** ** Quests stay available *)

Lemma update_with_quests change user_id guild_id w :
  quests (database (update_with change user_id guild_id w).2)
  = quests (database w).
Proof.
  unfold update_with. mrun.
  by destruct (dict_get (stats_key user_id guild_id) (user_stats (database w))).
Qed.

Lemma quests_available_run_call c w :
  quests_available (database w) → quests_available (database (run_call c w)).
Proof.
  intros Ha. destruct c; simpl.
  - mrun. intros k q. simpl. rewrite lookup_insert_Some.
    intros [[_ <-]|[_ Hq]]; [done|by apply (Ha k)].
  - unfold quests_available. by rewrite accept_quest_quests.
  - unfold quests_available. by rewrite complete_quest_quests.
  - unfold quests_available. by rewrite approve_quest_quests.
  - rewrite delete_quest_run. simpl. case_bool_decide; [|done].
    intros k q. simpl. rewrite lookup_delete_Some. intros [_ Hq].
    by apply (Ha k).
  - unfold quests_available.
    by rewrite update_quest_accepted_with, update_with_quests.
  - unfold quests_available.
    by rewrite update_quest_completed_with, update_with_quests.
  - unfold quests_available.
    by rewrite update_quest_rejected_with, update_with_quests.
Qed.

Lemma quests_available_run_calls cs w :
  quests_available (database w) → quests_available (database (run_calls cs w)).
Proof.
  revert w. induction cs as [|c cs IH]; intros w Ha; [done|].
  simpl. apply IH. by apply quests_available_run_call.
Qed.

(** In a store built from the empty one, the quest of every progress record
    is there and available: the first two checks of [accept_quest] let the
    owner of a record through. *)
Lemma reachable_record_quest cs w0 user_id quest_id e :
  database w0 = init →
  quest_progress (database (run_calls cs w0)) !! progress_key user_id quest_id
    = Some e →
  ∃ q, quests (database (run_calls cs w0)) !! quest_id = Some q
       ∧ Quest.status q = QuestStatus.AVAILABLE.
Proof.
  intros Hinit He.
  destruct (reachable_consistent cs w0 Hinit) as (Hk & Hr & _).
  assert (quests_available (database (run_calls cs w0))) as Ha.
  { apply quests_available_run_calls. rewrite Hinit. intros k q. simpl.
    by rewrite lookup_empty. }
  destruct (Hr _ _ He) as [q Hq].
  apply Hk in He. apply progress_key_inj in He as [_ ->].
  exists q. split; [done|]. by apply (Ha _ _ Hq).
Qed.

(** ** The leaderboard *)

Section sort_reverse_facts.
Context {A K : Type} (key : A → K) (ltb : K → K → bool).
Hypothesis ltb_asym : ∀ a b, ltb a b = true → ltb b a = false.
Hypothesis ltb_cotrans :
  ∀ a b c, ltb a b = false → ltb b c = false → ltb a c = false.

Lemma insert_desc_perm x l : insert_desc key ltb x l ≡ₚ x :: l.
Proof.
  induction l as [|y l IH]; simpl; [done|].
  destruct (ltb (key x) (key y)); [|done].
  rewrite IH. apply Permutation_swap.
Qed.

Lemma sort_reverse_perm l : sort_reverse key ltb l ≡ₚ l.
Proof.
  induction l as [|x l IH]; simpl; [done|].
  by rewrite insert_desc_perm, IH.
Qed.

Lemma insert_desc_sorted x l :
  StronglySorted (not_below key ltb) l →
  StronglySorted (not_below key ltb) (insert_desc key ltb x l).
Proof.
  induction 1 as [|y l Hl IH Hy]; simpl.
  - repeat constructor.
  - destruct (ltb (key x) (key y)) eqn:Hxy.
    + constructor; [done|].
      rewrite Forall_forall. intros z Hz.
      rewrite insert_desc_perm in Hz.
      apply elem_of_cons in Hz as [->|Hz].
      * by apply ltb_asym.
      * rewrite Forall_forall in Hy. by apply Hy.
    + constructor; [by constructor|].
      constructor; [done|].
      eapply Forall_impl; [exact Hy|]. intros z Hz.
      by apply ltb_cotrans with (key y).
Qed.

Lemma sort_reverse_sorted l : StronglySorted (not_below key ltb) (sort_reverse key ltb l).
Proof.
  induction l as [|x l IH]; simpl; [constructor|].
  by apply insert_desc_sorted.
Qed.


End sort_reverse_facts.





Lemma slice_to_nonneg {A} (l : list A) (n : Z) :
  (0 <= n)%Z → slice_to l n = take (Z.to_nat n) l.
Proof. intros Hn. unfold slice_to. by rewrite (proj2 (Z.leb_le 0 n) Hn). Qed.

Lemma StronglySorted_lookup {A} (R : A → A → Prop) (l : list A) i j x y :
  StronglySorted R l → i < j → l !! i = Some x → l !! j = Some y → R x y.
Proof.
  intros Hl. revert i j. induction Hl as [|z l Hl IH Hz]; intros i j Hij Hx Hy.
  - done.
  - destruct i as [|i], j as [|j]; simpl in *; try lia.
    + simplify_eq. rewrite Forall_forall in Hz. apply Hz.
      by eapply list_elem_of_lookup_2.
    + apply (IH i j); [lia|done..].
Qed.



Lemma progress_keyed_decide db :
  bool_decide
    (map_Forall (fun k p => k = progress_key (QuestProgress.user_id p)
                                             (QuestProgress.quest_id p))
                (quest_progress db)) = true →
  progress_keyed db.
Proof. intros H. by apply bool_decide_eq_true in H. Qed.

Lemma progress_refers_decide db :
  bool_decide
    (map_Forall (fun (k : string) p =>
                   is_Some (quests db !! QuestProgress.quest_id p))
                (quest_progress db)) = true →
  progress_refers db.
Proof. intros H. by apply bool_decide_eq_true in H. Qed.

Lemma delete_quest_cascades_witness :
  (JSONDatabase.get_user_quest_progress 5 "q1"
     (QuestManager.delete_quest "q1"
        (demo_world (demo_db [] [demo_progress 5 QuestStatus.ACCEPTED 0]) 0)).2).1
  = None.
Proof.
  pose proof (delete_quest_cascades
                (demo_world (demo_db [] [demo_progress 5 QuestStatus.ACCEPTED 0]) 0)
                "q1") as H.
  lapply H; [clear H; intros H
            |apply progress_keyed_decide; vm_compute; reflexivity].
  lapply H; [clear H; intros H
            |apply progress_refers_decide; vm_compute; reflexivity].
  destruct H as (_ & _ & _ & H & _). exact (H 5%Z).
Defined.

Lemma counters_witness :
  counters
    (database (UserStatsManager.update_quest_accepted 5 10
                 (demo_world init 0)).2) 5 10
  = (0, 1, 0)%Z.
Proof.
  pose proof (counters_increment_and_never_decrease (demo_world init 0) 5 10)
    as H.
  lapply H; [clear H; intros H|intros k s Hin; inversion Hin].
  destruct H as (H & _). exact H.
Defined.


Example leaderboard_ties_in_insertion_order :
  (UserStatsManager.get_guild_leaderboard 10 3
     (demo_world (demo_stats_db [demo_stats 1 3 4; demo_stats 2 5 5;
                                 demo_stats 3 3 4; demo_stats 4 3 9]) 0)).1
  = [demo_stats 2 5 5; demo_stats 4 3 9; demo_stats 1 3 4].
Proof. vm_compute. reflexivity. Qed.

(** ** The scenario of the specification, run *)

Example lifecycle_scenario :
  let w0 := demo_world init 0 in
  let r1 := QuestManager.create_quest "Scout the pass" "Report what you find"
              1 10 EmptyString "50 gold" (Some QuestRank.HARD) None None w0 in
  let q := Quest.quest_id r1.1 in
  let r2 := QuestManager.accept_quest q 5 (Some [3%Z]) (Some 77%Z) r1.2 in
  let r3 := QuestManager.complete_quest q 5 "done" None r2.2 in
  let r4 := QuestManager.complete_quest q 5 "again" None r3.2 in
  let r5 := QuestManager.approve_quest q 5 true r4.2 in
  let r6 := UserStatsManager.update_quest_completed 5 10 r5.2 in
  q = "3f2b8c1e"
  ∧ (QuestProgress.status <$> r2.1.1) = Some QuestStatus.ACCEPTED
  ∧ (QuestProgress.status <$> r3.1) = Some QuestStatus.COMPLETED
  ∧ r4.1 = None
  ∧ (QuestProgress.status <$> r5.1) = Some QuestStatus.APPROVED
  ∧ (QuestProgress.approval_status <$> r5.1) = Some "approved"
  ∧ counters (database r6.2) 5 10 = (1, 0, 0)%Z.
Proof. vm_compute. repeat split. Qed.

(** * Further properties of the code *)

(** ** The listings of quests *)

Lemma elem_of_get_guild_quests w guild_id status x :
  x ∈ (JSONDatabase.get_guild_quests guild_id status w).1
  ↔ ∃ k, quests (database w) !! k = Some x
         ∧ Quest.guild_id x = guild_id
         ∧ (status = None ∨ Some (Quest.status x) = status).
Proof.
  unfold JSONDatabase.get_guild_quests, mbind, M_bind, mret, M_ret, get_db.
  simpl. rewrite list_elem_of_filter, list_elem_of_fmap. split.
  - intros ((Hg & Hs) & [k x'] & -> & Hin).
    apply elem_of_map_to_list in Hin. eauto.
  - intros (k & Hk & Hg & Hs). split; [done|]. exists (k, x).
    split; [done|]. by apply elem_of_map_to_list.
Qed.

(** X1. A quest just created is found by [get_quest] under its id and is
    among the available quests of its guild; the listings of every guild and
    status hold it exactly when the guild is its own and the status asked for
    is none or "available". Besides it they hold the quests that were stored
    under the other ids: everything they held before when the id was not in
    use, while a quest that was stored under the same id is replaced. *)
Theorem created_quest_is_listed (w : World) (title description : string)
    (creator_id guild_id : Z) (requirements reward : string)
    (rank : option string) (required_role_ids : option (list Z))
    (category : option string) :
  let r := QuestManager.create_quest title description creator_id guild_id
             requirements reward rank required_role_ids category w in
  (QuestManager.get_quest (Quest.quest_id r.1) r.2).1 = Some r.1
  ∧ r.1 ∈ (QuestManager.get_available_quests guild_id r.2).1
  ∧ (∀ g status x,
       x ∈ (QuestManager.get_guild_quests g status r.2).1
       ↔ (x = r.1 ∧ g = guild_id
          ∧ (status = None ∨ status = Some QuestStatus.AVAILABLE))
         ∨ ∃ k, k ≠ Quest.quest_id r.1
                ∧ quests (database w) !! k = Some x
                ∧ Quest.guild_id x = g
                ∧ (status = None ∨ Some (Quest.status x) = status))
  ∧ (quests (database w) !! Quest.quest_id r.1 = None →
     ∀ g status x,
       x ∈ (QuestManager.get_guild_quests g status r.2).1
       ↔ (x = r.1 ∧ g = guild_id
          ∧ (status = None ∨ status = Some QuestStatus.AVAILABLE))
         ∨ x ∈ (QuestManager.get_guild_quests g status w).1)
  ∧ (∀ old g status,
       quests (database w) !! Quest.quest_id r.1 = Some old →
       old ∈ (QuestManager.get_guild_quests g status r.2).1 →
       old = r.1
       ∨ ∃ k, k ≠ Quest.quest_id r.1 ∧ quests (database w) !! k = Some old).
Proof.
  intros r.
  assert (quests (database r.2)
          = <[Quest.quest_id r.1 := r.1]> (quests (database w))) as Hq.
  { subst r. by mrun. }
  assert (Quest.guild_id r.1 = guild_id
          ∧ Quest.status r.1 = QuestStatus.AVAILABLE) as [Hg Hs].
  { subst r. by mrun. }
  assert (∀ g status x,
       x ∈ (QuestManager.get_guild_quests g status r.2).1
       ↔ (x = r.1 ∧ g = guild_id
          ∧ (status = None ∨ status = Some QuestStatus.AVAILABLE))
         ∨ ∃ k, k ≠ Quest.quest_id r.1
                ∧ quests (database w) !! k = Some x
                ∧ Quest.guild_id x = g
                ∧ (status = None ∨ Some (Quest.status x) = status)) as Hlist.
  { intros g status x. unfold QuestManager.get_guild_quests.
    rewrite elem_of_get_guild_quests, Hq. split.
    - intros (k & Hk & Hgx & Hsx).
      apply lookup_insert_Some in Hk as [[<- <-]|[Hne Hk]].
      + left. rewrite Hg in Hgx. rewrite Hs in Hsx.
        split; [done|]. split; [done|]. destruct Hsx; auto.
      + right. eauto 10.
    - intros [(-> & -> & Hst)|(k & Hne & Hk & Hgx & Hsx)].
      + exists (Quest.quest_id r.1). rewrite lookup_insert_eq, Hs.
        split; [done|]. split; [done|]. destruct Hst as [->| ->]; auto.
      + exists k. by rewrite lookup_insert_ne. }
  split; [|split; [|split; [done|split]]].
  - change (quests (database r.2) !! Quest.quest_id r.1 = Some r.1).
    rewrite Hq. apply lookup_insert_eq.
  - apply (Hlist guild_id (Some QuestStatus.AVAILABLE)). left. auto.
  - intros Hfresh g status x. rewrite Hlist.
    unfold QuestManager.get_guild_quests at 1.
    rewrite elem_of_get_guild_quests. split.
    + intros [H|(k & _ & Hk & Hgx & Hsx)]; [by left|right; eauto].
    + intros [H|(k & Hk & Hgx & Hsx)]; [by left|right].
      exists k. split; [|done]. intros ->. by rewrite Hfresh in Hk.
  - intros old g status _ Hin.
    apply Hlist in Hin as [(-> & _)|(k & Hne & Hk & _)]; [by left|right].
    eauto.
Qed.

Lemma accept_quest_Some_guild w quest_id user_id user_role_ids ch p :
  (QuestManager.accept_quest quest_id user_id user_role_ids ch w).1.1
    = Some p →
  ∃ q, quests (database w) !! quest_id = Some q
       ∧ Quest.status q = QuestStatus.AVAILABLE
       ∧ QuestProgress.guild_id p = Quest.guild_id q.
Proof.
  unfold QuestManager.accept_quest, JSONDatabase.get_quest,
    JSONDatabase.get_user_quest_progress, mbind, M_bind, mret, M_ret, get_db.
  simpl.
  destruct (quests (database w) !! quest_id) as [q|] eqn:Hq; [|done].
  destruct (String.eqb_spec (Quest.status q) QuestStatus.AVAILABLE)
    as [Hst|]; [simpl|done].
  intros H. exists q. split; [done|]. split; [done|].
  destruct (quest_progress (database w) !! _) as [e|].
  - destruct (bool_decide _); [done|].
    destruct (String.eqb _ QuestStatus.REJECTED).
    + unfold datetime_now in *. simpl in *.
      destruct (_ <? _)%Z; [done|].
      by apply accept_quest_tail_Some in H as [-> _].
    + by apply accept_quest_tail_Some in H as [-> _].
  - by apply accept_quest_tail_Some in H as [-> _].
Qed.

(** X2. [accept_quest] succeeds only on a quest that [get_available_quests]
    lists for the guild of the record it returns; and a quest that is listed,
    that the user has no record for and whose role check passes is accepted. *)
Theorem accepted_quests_are_listed (w : World) (quest_id : string)
    (user_id : Z) (user_role_ids : option (list Z))
    (accepted_channel_id : option Z) :
  (∀ p,
     (QuestManager.accept_quest quest_id user_id user_role_ids
        accepted_channel_id w).1.1 = Some p →
     ∃ q, quests (database w) !! quest_id = Some q
          ∧ q ∈ (QuestManager.get_available_quests
                   (QuestProgress.guild_id p) w).1)
  ∧ (∀ g q,
       q ∈ (QuestManager.get_available_quests g w).1 →
       quests (database w) !! quest_id = Some q →
       quest_progress (database w) !! progress_key user_id quest_id = None →
       QuestManager.lacks_required_roles q user_role_ids = false →
       is_Some (QuestManager.accept_quest quest_id user_id user_role_ids
                  accepted_channel_id w).1.1).
Proof.
  split.
  - intros p Hp. apply accept_quest_Some_guild in Hp as (q & Hq & Hs & Hg).
    exists q. split; [done|]. unfold QuestManager.get_available_quests.
    apply elem_of_get_guild_quests. exists quest_id.
    split; [done|]. split; [done|]. right. by rewrite Hs.
  - intros g q Hin Hq Hnone Hroles.
    unfold QuestManager.get_available_quests in Hin.
    apply elem_of_get_guild_quests in Hin as (k & _ & _ & [?|[= Hs]]); [done|].
    destruct (accept_quest_fresh w quest_id user_id user_role_ids
                accepted_channel_id q Hq Hs Hnone Hroles)
      as (p & w' & -> & _). by eexists.
Qed.

(** X3. After [delete_quest] the quest is not found by [get_quest], and
    the listings of every guild and status hold exactly the quests stored
    under the other ids. *)
Theorem deleted_quest_is_unlisted (w : World) (quest_id : string) :
  let w' := (QuestManager.delete_quest quest_id w).2 in
  (QuestManager.get_quest quest_id w').1 = None
  ∧ ∀ g status x,
      x ∈ (QuestManager.get_guild_quests g status w').1
      ↔ ∃ k, k ≠ quest_id
             ∧ quests (database w) !! k = Some x
             ∧ Quest.guild_id x = g
             ∧ (status = None ∨ Some (Quest.status x) = status).
Proof.
  intros w'.
  assert (∀ k x, quests (database w') !! k = Some x
                 ↔ k ≠ quest_id ∧ quests (database w) !! k = Some x) as Hq.
  { intros k x. subst w'. rewrite delete_quest_run. simpl.
    case_bool_decide as Hin; simpl.
    - rewrite lookup_delete_Some. intuition congruence.
    - split; [|by intros [_ ?]]. intros Hk. split; [|done].
      intros ->. apply Hin. by eexists. }
  split.
  - change (quests (database w') !! quest_id = None).
    destruct (quests (database w') !! quest_id) as [x|] eqn:Hx; [|done].
    by apply Hq in Hx as [? _].
  - intros g status x. unfold QuestManager.get_guild_quests.
    rewrite elem_of_get_guild_quests. split.
    + intros (k & Hk & Hg & Hs). apply Hq in Hk as [Hne Hk]. eauto 10.
    + intros (k & Hne & Hk & Hg & Hs). exists k. split; [|done].
      by apply Hq.
Qed.

(** ** The quests of a user *)

Lemma elem_of_user_records db user_id guild_id p :
  p ∈ user_records db user_id guild_id
  ↔ ∃ k, quest_progress db !! k = Some p
         ∧ QuestProgress.user_id p = user_id
         ∧ (guild_id = None ∨ Some (QuestProgress.guild_id p) = guild_id).
Proof.
  unfold user_records. rewrite list_elem_of_filter, list_elem_of_fmap. split.
  - intros ((Hu & Hg) & [k x'] & -> & Hin).
    apply elem_of_map_to_list in Hin. eauto.
  - intros (k & Hk & Hu & Hg). split; [done|]. exists (k, p).
    split; [done|]. by apply elem_of_map_to_list.
Qed.

Lemma Z_ltb_asym (a b : Z) : (a <? b)%Z = true → (b <? a)%Z = false.
Proof. rewrite Z.ltb_lt, Z.ltb_ge. lia. Qed.

Lemma Z_ltb_cotrans (a b c : Z) :
  (a <? b)%Z = false → (b <? c)%Z = false → (a <? c)%Z = false.
Proof. rewrite !Z.ltb_ge. lia. Qed.

(** X4. [get_user_quests] leaves the store as it is and returns the
    records of the user, of the guild when one is given and of every guild
    otherwise, each once, the latest accepted first. *)
Theorem user_quests_latest_first (w : World) (user_id : Z)
    (guild_id : option Z) :
  let r := QuestManager.get_user_quests user_id guild_id w in
  r.2 = w
  ∧ r.1 ≡ₚ user_records (database w) user_id guild_id
  ∧ (∀ p, p ∈ r.1
          ↔ ∃ k, quest_progress (database w) !! k = Some p
                 ∧ QuestProgress.user_id p = user_id
                 ∧ (guild_id = None
                    ∨ Some (QuestProgress.guild_id p) = guild_id))
  ∧ (∀ i j x y, i < j → r.1 !! i = Some x → r.1 !! j = Some y →
       (QuestProgress.accepted_at y <= QuestProgress.accepted_at x)%Z).
Proof.
  intros r. subst r.
  unfold QuestManager.get_user_quests, JSONDatabase.get_user_quests, mbind,
    M_bind, mret, M_ret, get_db.
  simpl. fold (user_records (database w) user_id guild_id).
  pose proof (sort_reverse_perm QuestProgress.accepted_at Z.ltb
                (user_records (database w) user_id guild_id)) as Hperm.
  split; [done|]. split; [done|]. split.
  - intros p. rewrite Hperm. apply elem_of_user_records.
  - intros i j x y Hij Hx Hy.
    pose proof (StronglySorted_lookup _ _ i j x y
                  (sort_reverse_sorted QuestProgress.accepted_at Z.ltb
                     Z_ltb_asym Z_ltb_cotrans _) Hij Hx Hy) as H.
    unfold not_below in H. by apply Z.ltb_ge in H.
Qed.

(** X5. The record a successful [accept_quest] returns is among the quests
    of the user, with no guild given and with the guild of the record, and
    under no other guild. *)
Theorem accepted_quest_in_user_quests (w : World) (quest_id : string)
    (user_id : Z) (user_role_ids : option (list Z))
    (accepted_channel_id : option Z) (p : QuestProgress.t) :
  let r := QuestManager.accept_quest quest_id user_id user_role_ids
             accepted_channel_id w in
  r.1.1 = Some p →
  p ∈ (QuestManager.get_user_quests user_id None r.2).1
  ∧ p ∈ (QuestManager.get_user_quests user_id
           (Some (QuestProgress.guild_id p)) r.2).1
  ∧ ∀ g, g ≠ QuestProgress.guild_id p →
         p ∉ (QuestManager.get_user_quests user_id (Some g) r.2).1.
Proof.
  intros r Hp. subst r.
  destruct (accept_quest_Some _ _ _ _ _ _ Hp)
    as (q & _ & _ & _ & Hu & _ & _ & Hdb).
  assert (∀ g x,
    x ∈ (QuestManager.get_user_quests user_id g
           (QuestManager.accept_quest quest_id user_id user_role_ids
              accepted_channel_id w).2).1
    ↔ x ∈ user_records
           (database (QuestManager.accept_quest quest_id user_id
                        user_role_ids accepted_channel_id w).2) user_id g)
    as Hmem.
  { intros g x. unfold QuestManager.get_user_quests,
      JSONDatabase.get_user_quests, mbind, M_bind, mret, M_ret, get_db.
    simpl. fold (user_records (database (QuestManager.accept_quest quest_id
      user_id user_role_ids accepted_channel_id w).2) user_id g).
    by rewrite sort_reverse_perm. }
  assert (quest_progress
            (database (QuestManager.accept_quest quest_id user_id
                         user_role_ids accepted_channel_id w).2)
            !! progress_key user_id quest_id = Some p) as Hstored.
  { rewrite Hdb. simpl. apply lookup_insert_eq. }
  split; [|split].
  - apply Hmem, elem_of_user_records. eauto.
  - apply Hmem, elem_of_user_records. eauto 10.
  - intros g Hne Hin. apply Hmem, elem_of_user_records in Hin
      as (k & _ & _ & [?|[= ?]]); done.
Qed.

Lemma accepted_quest_in_user_quests_witness :
  demo_progress 5 QuestStatus.ACCEPTED 0
  ∈ (QuestManager.get_user_quests 5 None
       (QuestManager.accept_quest "q1" 5 None None
          (demo_world (demo_db [] []) 0)).2).1.
Proof.
  pose proof (accepted_quest_in_user_quests (demo_world (demo_db [] []) 0)
                "q1" 5 None None (demo_progress 5 QuestStatus.ACCEPTED 0))
    as H.
  cbv zeta in H.
  lapply H; [clear H; intros [H _]|vm_compute; reflexivity].
  exact H.
Defined.

(** ** The submissions waiting for a decision *)

Lemma elem_of_get_pending_approvals w creator_id guild_id row :
  row ∈ (QuestManager.get_pending_approvals creator_id guild_id w).1
  ↔ ∃ k p q,
      quest_progress (database w) !! k = Some p
      ∧ QuestProgress.guild_id p = guild_id
      ∧ QuestProgress.status p = QuestStatus.COMPLETED
      ∧ quests (database w) !! QuestProgress.quest_id p = Some q
      ∧ Quest.creator_id q = creator_id
      ∧ row = (QuestProgress.quest_id p, QuestProgress.user_id p,
               QuestProgress.proof_text p, QuestProgress.proof_image_urls p,
               Quest.title q).
Proof.
  unfold QuestManager.get_pending_approvals,
    JSONDatabase.get_pending_approvals, mbind, M_bind, mret, M_ret, get_db.
  simpl. rewrite list_elem_of_omap. split.
  - intros (p & Hin & Hrow).
    apply list_elem_of_fmap in Hin as ([k p'] & -> & Hin).
    apply elem_of_map_to_list in Hin. simpl in *.
    unfold JSONDatabase.pending_row in Hrow.
    case_bool_decide as Hc; [|done]. destruct Hc as [Hg Hs].
    destruct (quests (database w) !! QuestProgress.quest_id p') as [q|] eqn:Hq;
      [|done].
    case_bool_decide; [|done]. injection Hrow as <-. eauto 12.
  - intros (k & p & q & Hp & Hg & Hs & Hq & Hc & ->). exists p. split.
    + apply list_elem_of_fmap. exists (k, p). split; [done|].
      by apply elem_of_map_to_list.
    + unfold JSONDatabase.pending_row.
      rewrite bool_decide_true by done. rewrite Hq.
      by rewrite bool_decide_true.
Qed.

Lemma complete_quest_Some w quest_id user_id text urls p' :
  (QuestManager.complete_quest quest_id user_id text urls w).1 = Some p' →
  ∃ p,
    quest_progress (database w) !! progress_key user_id quest_id = Some p
    ∧ QuestProgress.status p = QuestStatus.ACCEPTED
    ∧ p' = QuestProgress.set_completed p (clock w (ticks w)) text
             (default [] urls) "pending" QuestStatus.COMPLETED
    ∧ database (QuestManager.complete_quest quest_id user_id text urls w).2
      = {| quests := quests (database w);
           quest_progress :=
             <[progress_key (QuestProgress.user_id p)
                            (QuestProgress.quest_id p) := p']>
               (quest_progress (database w));
           user_stats := user_stats (database w) |}.
Proof.
  mrun.
  destruct (quest_progress (database w) !! _) as [p|] eqn:Hp; [|done].
  destruct (String.eqb_spec (QuestProgress.status p) QuestStatus.ACCEPTED)
    as [Hst|]; [|done].
  simpl. intros [= <-]. exists p.
  assert (or_empty urls = default [] urls) as ->
    by (by destruct urls as [[|??]|]).
  done.
Qed.

Lemma approve_quest_completed w quest_id user_id approved p :
  quest_progress (database w) !! progress_key user_id quest_id = Some p →
  QuestProgress.status p = QuestStatus.COMPLETED →
  ∃ p' w',
    QuestManager.approve_quest quest_id user_id approved w = (Some p', w')
    ∧ QuestProgress.status p'
      = (if approved then QuestStatus.APPROVED else QuestStatus.REJECTED)
    ∧ p' = QuestProgress.set_decision p (QuestProgress.status p')
             (QuestProgress.status p')
    ∧ database w'
      = {| quests := quests (database w);
           quest_progress :=
             <[progress_key (QuestProgress.user_id p)
                            (QuestProgress.quest_id p) := p']>
               (quest_progress (database w));
           user_stats := user_stats (database w) |}.
Proof.
  intros Hp Hst. mrun. rewrite Hp, Hst. simpl.
  destruct approved; simpl; do 2 eexists; (split; [done|]); simpl;
    by repeat split.
Qed.

(** X6. In a store whose records are filed under their own keys, a
    successful [complete_quest] on an existing quest puts the row of the
    submission (quest, user, proof text, proof images, title) among the
    pending approvals of the creator of the quest; a decision by
    [approve_quest], either way, then succeeds and leaves no row of that user
    and quest among any pending approvals. *)
Theorem submission_waits_until_decided (w : World) (quest_id : string)
    (user_id : Z) (proof_text : string)
    (proof_image_urls : option (list string)) (q : Quest.t)
    (p : QuestProgress.t) :
  progress_keyed (database w) →
  quests (database w) !! quest_id = Some q →
  let r := QuestManager.complete_quest quest_id user_id proof_text
             proof_image_urls w in
  r.1 = Some p →
  (quest_id, user_id, proof_text, default [] proof_image_urls, Quest.title q)
    ∈ (QuestManager.get_pending_approvals (Quest.creator_id q)
         (QuestProgress.guild_id p) r.2).1
  ∧ ∀ approved creator_id guild_id row,
      let r' := QuestManager.approve_quest quest_id user_id approved r.2 in
      is_Some r'.1
      ∧ (row ∈ (QuestManager.get_pending_approvals creator_id guild_id r'.2).1
         → (row.1.1.1.1, row.1.1.1.2) ≠ (quest_id, user_id)).
Proof.
  intros Hkeyed Hq r Hr. subst r.
  destruct (complete_quest_Some _ _ _ _ _ _ Hr) as (p0 & Hp0 & Hs0 & -> & Hdb).
  pose proof (Hkeyed _ _ Hp0) as Hk. apply progress_key_inj in Hk as [Hu Hi].
  set (w1 := (QuestManager.complete_quest quest_id user_id proof_text
                proof_image_urls w).2) in *.
  set (p1 := QuestProgress.set_completed p0 _ _ _ _ _) in *.
  assert (quest_progress (database w1) !! progress_key user_id quest_id
          = Some p1) as Hp1.
  { rewrite Hdb, <- Hu, <- Hi. simpl. apply lookup_insert_eq. }
  assert (progress_keyed (database w1)) as Hkeyed1.
  { rewrite Hdb.
    apply (progress_keyed_insert (database w) p1 (quests (database w))
             (user_stats (database w)) Hkeyed). }
  split.
  - apply elem_of_get_pending_approvals.
    exists (progress_key user_id quest_id), p1, q.
    split; [done|]. split; [done|]. split; [done|].
    split; [by rewrite Hdb; simpl; rewrite <- Hi|]. split; [done|].
    subst p1. simpl. by rewrite <- Hu, <- Hi.
  - intros approved creator_id guild_id row r'. subst r'.
    destruct (approve_quest_completed w1 quest_id user_id approved p1 Hp1
                eq_refl) as (p2 & w2 & -> & Hs2 & Hp2 & Hdb2).
    simpl. split; [by eexists|].
    intros Hrow Heq.
    apply elem_of_get_pending_approvals in Hrow
      as (k & pr & qr & Hpr & _ & Hspr & _ & _ & ->).
    simpl in Heq. injection Heq as Hqi Hui.
    assert (QuestProgress.user_id p2 = QuestProgress.user_id p1
            ∧ QuestProgress.quest_id p2 = QuestProgress.quest_id p1)
      as [Eu Ei] by (by rewrite Hp2).
    assert (progress_keyed (database w2)) as Hkeyed2.
    { rewrite Hdb2, <- Eu, <- Ei. by apply progress_keyed_insert. }
    pose proof (Hkeyed2 _ _ Hpr) as Hk. rewrite Hqi, Hui in Hk. subst k.
    rewrite Hdb2 in Hpr. simpl in Hpr.
    rewrite <- Hu, <- Hi, lookup_insert_eq in Hpr. injection Hpr as <-.
    rewrite Hs2 in Hspr. by destruct approved.
Qed.

Lemma submission_waits_until_decided_witness :
  ("q1", 5%Z, "done", [], "Scout the pass")
  ∈ (QuestManager.get_pending_approvals 1 10
       (QuestManager.complete_quest "q1" 5 "done" None
          (demo_world (demo_db [] [demo_progress 5 QuestStatus.ACCEPTED 0])
                      7)).2).1.
Proof.
  pose proof (submission_waits_until_decided
    (demo_world (demo_db [] [demo_progress 5 QuestStatus.ACCEPTED 0]) 7)
    "q1" 5 "done" None (demo_quest [])
    (QuestProgress.set_completed (demo_progress 5 QuestStatus.ACCEPTED 0) 7
       "done" [] "pending" QuestStatus.COMPLETED)) as H.
  lapply H; [clear H; intros H
            |apply progress_keyed_decide; vm_compute; reflexivity].
  lapply H; [clear H; intros H|vm_compute; reflexivity].
  cbv zeta in H.
  lapply H; [clear H; intros [H _]|vm_compute; reflexivity].
  exact H.
Defined.

(** ** The totals of a guild *)

Lemma sum_of_app f l1 l2 : sum_of f (l1 ++ l2) = (sum_of f l1 + sum_of f l2)%Z.
Proof. induction l1 as [|x l1 IH]; simpl; [done|]. rewrite IH. lia. Qed.

Lemma sum_of_perm f l1 l2 : l1 ≡ₚ l2 → sum_of f l1 = sum_of f l2.
Proof.
  induction 1 as [|x l1 l2 _ IH|x y l|l1 l2 l3 _ IH1 _ IH2]; simpl;
    [done|by rewrite IH|lia|congruence].
Qed.

Lemma sum_of_ones l : sum_of (fun _ => 1%Z) l = Z.of_nat (length l).
Proof. induction l as [|x l IH]; simpl; [done|]. rewrite IH. lia. Qed.

Lemma get_total_guild_stats_sums w guild_id :
  UserStatsManager.get_total_guild_stats guild_id w
  = ({| JSONDatabase.total_completed :=
          sum_of UserStats.quests_completed
                 (guild_records (database w) guild_id);
        JSONDatabase.total_accepted :=
          sum_of UserStats.quests_accepted
                 (guild_records (database w) guild_id);
        JSONDatabase.active_users :=
          Z.of_nat (length (guild_records (database w) guild_id)) |}, w).
Proof.
  unfold UserStatsManager.get_total_guild_stats,
    JSONDatabase.get_total_guild_stats, mbind, M_bind, mret, M_ret, get_db,
    guild_records.
  simpl. f_equal.
  set (step := fun acc data => if bool_decide _ then _ else acc).
  assert (∀ l acc,
    foldl step acc l
    = {| JSONDatabase.total_completed :=
           JSONDatabase.total_completed acc
           + sum_of UserStats.quests_completed
               (filter (fun s => UserStats.guild_id s = guild_id) l);
         JSONDatabase.total_accepted :=
           JSONDatabase.total_accepted acc
           + sum_of UserStats.quests_accepted
               (filter (fun s => UserStats.guild_id s = guild_id) l);
         JSONDatabase.active_users :=
           JSONDatabase.active_users acc
           + Z.of_nat (length (filter (fun s => UserStats.guild_id s = guild_id)
                                      l)) |}) as Hfold.
  { induction l as [|x l IH]; intros acc; simpl.
    - destruct acc. simpl. f_equal; lia.
    - rewrite IH, filter_cons. subst step. cbv beta.
      destruct (decide (UserStats.guild_id x = guild_id)) as [Hx|Hx].
      + rewrite bool_decide_true by done. simpl. f_equal; lia.
      + by rewrite bool_decide_false by done. }
  rewrite Hfold. simpl. done.
Qed.

(** X7. The [active_users] of [get_total_guild_stats] is the number of
    records of the guild: the leaderboard of a limit that is not negative has
    the smaller of the two as its length, and a leaderboard whose limit
    reaches [active_users] sums to the totals of completed and of accepted
    quests. *)
Theorem totals_agree_with_leaderboard (w : World) (guild_id limit : Z) :
  let t := (UserStatsManager.get_total_guild_stats guild_id w).1 in
  let l := (UserStatsManager.get_guild_leaderboard guild_id limit w).1 in
  (0 <= JSONDatabase.active_users t)%Z
  ∧ ((0 <= limit)%Z →
     Z.of_nat (length l) = Z.min limit (JSONDatabase.active_users t))
  ∧ ((JSONDatabase.active_users t <= limit)%Z →
     sum_of UserStats.quests_completed l = JSONDatabase.total_completed t
     ∧ sum_of UserStats.quests_accepted l = JSONDatabase.total_accepted t).
Proof.
  intros t l. subst t l. rewrite get_total_guild_stats_sums. simpl.
  unfold UserStatsManager.get_guild_leaderboard,
    JSONDatabase.get_guild_leaderboard, mbind, M_bind, mret, M_ret, get_db.
  simpl. fold (guild_records (database w) guild_id).
  set (records := guild_records (database w) guild_id).
  pose proof (sort_reverse_perm JSONDatabase.leaderboard_key pair_ltb records)
    as Hperm.
  pose proof (Permutation_length Hperm) as Hlen.
  split; [lia|]. split.
  - intros Hl. rewrite slice_to_nonneg, length_take by done. lia.
  - intros Hl. rewrite slice_to_nonneg by lia.
    rewrite take_ge by lia. split; by apply sum_of_perm.
Qed.

Lemma sum_of_dict_set (f : UserStats.t → Z) (g : Z) k s'
    (d : list (string * UserStats.t)) :
  (∀ k' x, (k', x) ∈ d →
     k' = stats_key (UserStats.user_id x) (UserStats.guild_id x)) →
  k = stats_key (UserStats.user_id s') (UserStats.guild_id s') →
  sum_of f (filter (fun s => UserStats.guild_id s = g)
                   (dict_values (dict_set k s' d)))
  = (sum_of f (filter (fun s => UserStats.guild_id s = g) (dict_values d))
     + (if decide (UserStats.guild_id s' = g)
        then f s' - from_option f 0 (dict_get k d) else 0))%Z.
Proof.
  intros Hkeyed Hk. unfold dict_values.
  induction d as [|[k1 x1] d IH]; [simpl|cbn [dict_set dict_get]].
  - rewrite filter_cons, filter_nil. case_decide; simpl; lia.
  - assert (∀ k' x, (k', x) ∈ d →
              k' = stats_key (UserStats.user_id x) (UserStats.guild_id x))
      as Hd by (intros; apply Hkeyed; by right).
    destruct (String.eqb_spec k k1) as [<-|Hne].
    + assert (UserStats.guild_id x1 = UserStats.guild_id s') as Hg.
      { pose proof (Hkeyed k x1 ltac:(left)) as Hx. rewrite Hk in Hx.
        by apply stats_key_inj in Hx as [_ ->]. }
      rewrite !fmap_cons, !filter_cons. simpl. rewrite Hg.
      destruct (decide (UserStats.guild_id s' = g)); simpl; lia.
    + rewrite !fmap_cons, !filter_cons. simpl.
      destruct (decide (UserStats.guild_id x1 = g)); simpl;
        rewrite (IH Hd); case_decide; lia.
Qed.

Lemma update_with_sum change user_id guild_id w
    (f : UserStats.t → Z) (g : Z) :
  keeps_pair change → stats_keyed (database w) →
  ∃ s t,
    counters (database w) user_id guild_id
      = (UserStats.quests_completed s, UserStats.quests_accepted s,
         UserStats.quests_rejected s)
    ∧ sum_of f (guild_records
                  (database (update_with change user_id guild_id w).2) g)
      = (sum_of f (guild_records (database w) g)
         + (if decide (guild_id = g)
            then f (change s t)
                 - from_option f 0
                     (dict_get (stats_key user_id guild_id)
                               (user_stats (database w)))
            else 0))%Z.
Proof.
  intros Hchange Hkeyed. unfold update_with, counters, guild_records.
  mrun.
  destruct (dict_get (stats_key user_id guild_id) (user_stats (database w)))
    as [s|] eqn:Hs; simpl.
  - destruct (Hchange s (clock w (ticks w))) as [Hu Hg].
    assert (stats_key user_id guild_id
            = stats_key (UserStats.user_id s) (UserStats.guild_id s)) as Hk.
    { apply Hkeyed. by apply dict_get_elem_of. }
    pose proof Hk as Hk'. apply stats_key_inj in Hk' as [_ Hgs].
    exists s, (clock w (ticks w)). split; [done|].
    rewrite sum_of_dict_set; [|done|by rewrite Hu, Hg].
    rewrite Hu, Hg, <- Hk, Hs, <- Hgs. simpl. done.
  - set (s := {| UserStats.user_id := user_id |}).
    destruct (Hchange s (clock w (S (S (ticks w))))) as [Hu Hg].
    exists s, (clock w (S (S (ticks w)))). split; [done|].
    rewrite sum_of_dict_set; [|by apply stats_keyed_set with (s := s)
                              |by rewrite Hu, Hg].
    rewrite Hu, Hg. change (UserStats.user_id s) with user_id.
    change (UserStats.guild_id s) with guild_id.
    rewrite dict_get_set_eq.
    rewrite (sum_of_dict_set f g (stats_key user_id guild_id) s); [|done..].
    rewrite Hs. change (UserStats.guild_id s) with guild_id.
    case_decide; simpl; lia.
Qed.

Lemma totals_after_update change user_id guild_id w g (dc da : Z) :
  keeps_pair change → stats_keyed (database w) →
  (∀ s t, UserStats.quests_completed (change s t)
            = (UserStats.quests_completed s + dc)%Z
          ∧ UserStats.quests_accepted (change s t)
            = (UserStats.quests_accepted s + da)%Z) →
  let t := (UserStatsManager.get_total_guild_stats g w).1 in
  (UserStatsManager.get_total_guild_stats g
     (update_with change user_id guild_id w).2).1
  = if decide (guild_id = g) then
      {| JSONDatabase.total_completed := JSONDatabase.total_completed t + dc;
         JSONDatabase.total_accepted := JSONDatabase.total_accepted t + da;
         JSONDatabase.active_users :=
           JSONDatabase.active_users t
           + newcomer (database w) user_id guild_id |}
    else t.
Proof.
  intros Hchange Hkeyed Hd t. subst t.
  rewrite !get_total_guild_stats_sums. simpl.
  rewrite <- !sum_of_ones.
  destruct (update_with_sum change user_id guild_id w
              UserStats.quests_completed g Hchange Hkeyed)
    as (s1 & t1 & Hc1 & ->).
  destruct (update_with_sum change user_id guild_id w
              UserStats.quests_accepted g Hchange Hkeyed)
    as (s2 & t2 & Hc2 & ->).
  destruct (update_with_sum change user_id guild_id w
              (fun _ => 1%Z) g Hchange Hkeyed)
    as (s3 & t3 & Hc3 & ->).
  destruct (Hd s1 t1) as [-> _]. destruct (Hd s2 t2) as [_ ->].
  unfold counters, newcomer in *.
  destruct (dict_get (stats_key user_id guild_id) (user_stats (database w)))
    as [s|]; simplify_eq/=; case_decide; f_equal; lia.
Qed.

(** X8. In a store whose statistics are filed under their own keys, each
    recording moves the totals of its guild by its own counter only
    ([total_accepted] by one for an acceptance, [total_completed] by one for
    a completion, neither for a rejection), counts the user as active when
    they had no record yet, and leaves the totals of every other guild as
    they were. *)
Theorem recording_moves_totals (w : World) (user_id guild_id : Z) :
  stats_keyed (database w) →
  let totals := fun g w' => (UserStatsManager.get_total_guild_stats g w').1 in
  let t := totals guild_id w in
  let n := newcomer (database w) user_id guild_id in
  totals guild_id (UserStatsManager.update_quest_accepted user_id guild_id w).2
    = {| JSONDatabase.total_completed := JSONDatabase.total_completed t;
         JSONDatabase.total_accepted := JSONDatabase.total_accepted t + 1;
         JSONDatabase.active_users := JSONDatabase.active_users t + n |}
  ∧ totals guild_id
      (UserStatsManager.update_quest_completed user_id guild_id w).2
    = {| JSONDatabase.total_completed := JSONDatabase.total_completed t + 1;
         JSONDatabase.total_accepted := JSONDatabase.total_accepted t;
         JSONDatabase.active_users := JSONDatabase.active_users t + n |}
  ∧ totals guild_id
      (UserStatsManager.update_quest_rejected user_id guild_id w).2
    = {| JSONDatabase.total_completed := JSONDatabase.total_completed t;
         JSONDatabase.total_accepted := JSONDatabase.total_accepted t;
         JSONDatabase.active_users := JSONDatabase.active_users t + n |}
  ∧ ∀ g, g ≠ guild_id →
      totals g (UserStatsManager.update_quest_accepted user_id guild_id w).2
        = totals g w
      ∧ totals g
          (UserStatsManager.update_quest_completed user_id guild_id w).2
        = totals g w
      ∧ totals g (UserStatsManager.update_quest_rejected user_id guild_id w).2
        = totals g w.
Proof.
  intros Hkeyed totals t n. subst totals t n. cbv beta.
  destruct keeps_pair_add as (Ha & Hc & Hr).
  rewrite update_quest_accepted_with, update_quest_completed_with,
    update_quest_rejected_with.
  pose proof (fun g => totals_after_update add_accepted user_id guild_id w g
                         0 1 Ha Hkeyed) as Hacc.
  pose proof (fun g => totals_after_update add_completed user_id guild_id w g
                         1 0 Hc Hkeyed) as Hcom.
  pose proof (fun g => totals_after_update add_rejected user_id guild_id w g
                         0 0 Hr Hkeyed) as Hrej.
  cbv zeta in Hacc, Hcom, Hrej.
  split; [|split; [|split]].
  - rewrite Hacc by (intros; simpl; lia). rewrite decide_True by done.
    f_equal; lia.
  - rewrite Hcom by (intros; simpl; lia). rewrite decide_True by done.
    f_equal; lia.
  - rewrite Hrej by (intros; simpl; lia). rewrite decide_True by done.
    f_equal; lia.
  - intros g Hne.
    rewrite Hacc, Hcom, Hrej by (intros; simpl; lia).
    by rewrite !decide_False by done.
Qed.

Lemma recording_moves_totals_witness :
  (UserStatsManager.get_total_guild_stats 10
     (UserStatsManager.update_quest_accepted 5 10 (demo_world init 0)).2).1
  = {| JSONDatabase.total_completed := 0; JSONDatabase.total_accepted := 1;
       JSONDatabase.active_users := 1 |}.
Proof.
  pose proof (recording_moves_totals (demo_world init 0) 5 10) as H.
  lapply H; [clear H; intros H|intros k s Hin; inversion Hin].
  cbv zeta in H. destruct H as (H & _). exact H.
Defined.

(** ** Loading or creating the statistics of a pair *)

(** X9. [get_user_stats] returns the record of the pair when there is
    one, leaving the world as it is, and otherwise stores and returns a record
    of zero counters dated by two readings of the clock, leaving the other
    records, the quests and the progress records alone; asking again returns
    the same record and changes nothing. *)
Theorem get_user_stats_creates_once (w : World) (user_id guild_id : Z) :
  let r := UserStatsManager.get_user_stats user_id guild_id w in
  UserStatsManager.get_user_stats user_id guild_id r.2 = (r.1, r.2)
  ∧ dict_get (stats_key user_id guild_id) (user_stats (database r.2))
    = Some r.1
  ∧ quests (database r.2) = quests (database w)
  ∧ quest_progress (database r.2) = quest_progress (database w)
  ∧ match dict_get (stats_key user_id guild_id) (user_stats (database w)) with
    | Some s => r = (s, w)
    | None =>
        r.1 = {| UserStats.user_id := user_id;
                 UserStats.guild_id := guild_id;
                 UserStats.quests_completed := 0;
                 UserStats.quests_accepted := 0;
                 UserStats.quests_rejected := 0;
                 UserStats.first_quest_date := clock w (ticks w);
                 UserStats.last_quest_date := clock w (S (ticks w)) |}
        ∧ ∀ k, k ≠ stats_key user_id guild_id →
               dict_get k (user_stats (database r.2))
               = dict_get k (user_stats (database w))
    end.
Proof.
  intros r. subst r. mrun.
  destruct (dict_get (stats_key user_id guild_id) (user_stats (database w)))
    as [s|] eqn:Hs; simpl.
  - rewrite Hs. done.
  - rewrite dict_get_set_eq. repeat split.
    intros k Hne. by apply dict_get_set_ne.
Qed.

(** ** The channels of a guild *)

(** X10. After [set_guild_channels] the five getters and
    [get_guild_config] return the channels given, [None] included, and the
    configuration of every other guild is as before. *)
Theorem set_guild_channels_round_trip
    (channel_config : gmap string ChannelConfigModel.t) (guild_id : Z)
    (quest_list_channel quest_accept_channel quest_submit_channel
       quest_approval_channel notification_channel : option Z) :
  let cc := ChannelConfig.set_guild_channels guild_id quest_list_channel
              quest_accept_channel quest_submit_channel
              quest_approval_channel notification_channel channel_config in
  ChannelConfig.get_quest_list_channel guild_id cc = quest_list_channel
  ∧ ChannelConfig.get_quest_accept_channel guild_id cc = quest_accept_channel
  ∧ ChannelConfig.get_quest_submit_channel guild_id cc = quest_submit_channel
  ∧ ChannelConfig.get_quest_approval_channel guild_id cc
    = quest_approval_channel
  ∧ ChannelConfig.get_notification_channel guild_id cc = notification_channel
  ∧ ChannelConfig.get_guild_config guild_id cc
    = [("quest_list_channel", quest_list_channel);
       ("quest_accept_channel", quest_accept_channel);
       ("quest_submit_channel", quest_submit_channel);
       ("quest_approval_channel", quest_approval_channel);
       ("notification_channel", notification_channel)]
  ∧ ∀ other, other ≠ guild_id →
      JSONDatabase.get_channel_config other cc
      = JSONDatabase.get_channel_config other channel_config.
Proof.
  intros cc. subst cc.
  unfold ChannelConfig.get_quest_list_channel,
    ChannelConfig.get_quest_accept_channel,
    ChannelConfig.get_quest_submit_channel,
    ChannelConfig.get_quest_approval_channel,
    ChannelConfig.get_notification_channel, ChannelConfig.get_guild_config,
    ChannelConfig.set_guild_channels, JSONDatabase.get_channel_config,
    JSONDatabase.save_channel_config.
  cbn [ChannelConfigModel.guild_id]. rewrite lookup_insert_eq.
  repeat split. intros other Hne. apply lookup_insert_ne.
  intros Heq. by apply (inj pretty) in Heq.
Qed.

(** X11. [set_guild_channels] replaces the whole configuration of the
    guild: nothing of an earlier call for the same guild survives a later
    one. *)
Theorem set_guild_channels_overwrites
    (channel_config : gmap string ChannelConfigModel.t) (guild_id : Z)
    (l1 a1 s1 p1 n1 l2 a2 s2 p2 n2 : option Z) :
  ChannelConfig.set_guild_channels guild_id l2 a2 s2 p2 n2
    (ChannelConfig.set_guild_channels guild_id l1 a1 s1 p1 n1 channel_config)
  = ChannelConfig.set_guild_channels guild_id l2 a2 s2 p2 n2 channel_config.
Proof.
  unfold ChannelConfig.set_guild_channels, JSONDatabase.save_channel_config.
  cbn [ChannelConfigModel.guild_id]. apply insert_insert_eq.
Qed.

(** ** Who may create and who may manage *)

(** X12. Whoever may manage a quest is its creator or may create quests;
    the creator may always manage their quest; the owner of the guild may do
    both; and a member with one of the roles "Quest Master", "Moderator",
    "Admin", "Staff" may create quests. *)
Theorem managers_may_create (user : permissions.GuildMember.t)
    (guild : permissions.Guild.t) (quest_creator_id : Z) :
  (permissions.can_manage_quest user guild quest_creator_id = true →
   permissions.GuildMember.id user = quest_creator_id
   ∨ permissions.has_quest_creation_permission user guild = true)
  ∧ (permissions.GuildMember.id user = quest_creator_id →
     permissions.can_manage_quest user guild quest_creator_id = true)
  ∧ (permissions.GuildMember.id user = permissions.Guild.owner_id guild →
     permissions.can_manage_quest user guild quest_creator_id = true
     ∧ permissions.has_quest_creation_permission user guild = true)
  ∧ ((∃ role, role ∈ permissions.GuildMember.role_names user
              ∧ role ∈ permissions.quest_creator_roles) →
     permissions.has_quest_creation_permission user guild = true).
Proof.
  unfold permissions.can_manage_quest, permissions.has_quest_creation_permission.
  split; [|split; [|split]].
  - repeat case_bool_decide; try tauto;
      destruct (permissions.Permissions.administrator
                  (permissions.GuildMember.guild_permissions user)),
               (permissions.Permissions.manage_guild
                  (permissions.GuildMember.guild_permissions user));
      simpl; auto; discriminate.
  - intros Hc. repeat case_bool_decide; done.
  - intros Ho. by rewrite !bool_decide_true by done.
  - intros (role & Hin & Hrole). repeat case_match; try done.
    apply existsb_exists. exists role. split.
    + by apply list_elem_of_In.
    + by apply bool_decide_eq_true.
Qed.

(** ** The limit of the leaderboard command *)

Lemma leaderboard_stats_list_run w guild_id limit :
  QuestCommands.leaderboard_stats_list guild_id limit w
  = UserStatsManager.get_guild_leaderboard guild_id
      (match limit with
       | None => 10
       | Some n => if (n =? 0)%Z then 10 else if (25 <? n)%Z then 25 else n
       end)%Z w.
Proof.
  unfold QuestCommands.leaderboard_stats_list.
  apply (f_equal (fun m => UserStatsManager.get_guild_leaderboard guild_id m w)).
  destruct limit as [n|]; simpl; [|done].
  destruct (Z.eqb_spec n 0) as [->|Hn]; simpl; [done|].
  destruct (Z.ltb_spec 25 n); simpl; [done|].
  by destruct (Z.eqb_spec n 0).
Qed.

Lemma length_get_guild_leaderboard w guild_id limit :
  length (UserStatsManager.get_guild_leaderboard guild_id limit w).1
  = length (slice_to (guild_records (database w) guild_id) limit).
Proof.
  unfold UserStatsManager.get_guild_leaderboard,
    JSONDatabase.get_guild_leaderboard, mbind, M_bind, mret, M_ret, get_db.
  simpl. fold (guild_records (database w) guild_id).
  pose proof (Permutation_length
    (sort_reverse_perm JSONDatabase.leaderboard_key pair_ltb
       (guild_records (database w) guild_id))) as Hp.
  unfold slice_to. rewrite Hp. case_match; rewrite !length_take; lia.
Qed.

(** X13. The leaderboard command asks for 10 entries when its limit is
    absent or 0, for at most 25 when it is positive, and passes a negative
    limit on as it is; the list is then the ranking of all the records of the
    guild (the leaderboard whose limit is their number) without its last
    [- limit] entries, and empty when there are no more than that. *)
Theorem leaderboard_command_limit (w : World) (guild_id : Z)
    (limit : option Z) :
  let r := QuestCommands.leaderboard_stats_list guild_id limit w in
  (limit = None ∨ limit = Some 0%Z →
     r = UserStatsManager.get_guild_leaderboard guild_id 10 w
     ∧ length r.1 <= 10)
  ∧ (∀ n, limit = Some n → (0 < n)%Z →
       r = UserStatsManager.get_guild_leaderboard guild_id (Z.min n 25) w
       ∧ (Z.of_nat (length r.1) <= Z.min n 25)%Z)
  ∧ (∀ n, limit = Some n → (n < 0)%Z →
       let records := guild_records (database w) guild_id in
       let ranking :=
         (UserStatsManager.get_guild_leaderboard guild_id
            (Z.of_nat (length records)) w).1 in
       r = UserStatsManager.get_guild_leaderboard guild_id n w
       ∧ ranking ≡ₚ records
       ∧ r.1 = take (length ranking - Z.to_nat (- n)) ranking
       ∧ Z.of_nat (length r.1) = Z.max 0 (Z.of_nat (length records) + n)).
Proof.
  intros r. subst r. rewrite leaderboard_stats_list_run.
  split; [|split].
  - intros [->| ->]; cbn [Z.eqb]; (split; [done|]);
      rewrite length_get_guild_leaderboard, slice_to_nonneg, length_take
        by lia; lia.
  - intros n -> Hn.
    assert ((n =? 0)%Z = false) as -> by lia.
    assert ((if (25 <? n)%Z then 25 else n) = Z.min n 25)%Z as ->
      by (destruct (Z.ltb_spec 25 n); lia).
    split; [done|].
    rewrite length_get_guild_leaderboard, slice_to_nonneg, length_take by lia.
    lia.
  - intros n -> Hn records ranking.
    assert ((n =? 0)%Z = false) as -> by lia.
    assert ((25 <? n)%Z = false) as -> by lia.
    split; [done|].
    pose proof (sort_reverse_perm JSONDatabase.leaderboard_key pair_ltb
                  records) as Hperm.
    pose proof (Permutation_length Hperm) as Hlen.
    assert (ranking
            = sort_reverse JSONDatabase.leaderboard_key pair_ltb records)
      as Hranking.
    { subst ranking.
      unfold UserStatsManager.get_guild_leaderboard,
        JSONDatabase.get_guild_leaderboard, mbind, M_bind, mret, M_ret,
        get_db.
      simpl. fold (guild_records (database w) guild_id). fold records.
      rewrite slice_to_nonneg by lia. apply take_ge. lia. }
    split; [by rewrite Hranking|].
    assert ((UserStatsManager.get_guild_leaderboard guild_id n w).1
            = take (length ranking - Z.to_nat (- n)) ranking) as Hr.
    { rewrite Hranking.
      unfold UserStatsManager.get_guild_leaderboard,
        JSONDatabase.get_guild_leaderboard, mbind, M_bind, mret, M_ret,
        get_db.
      simpl. fold (guild_records (database w) guild_id). fold records.
      unfold slice_to. assert ((0 <=? n)%Z = false) as -> by lia.
      f_equal. lia. }
    split; [done|]. rewrite Hr, length_take, Hranking. lia.
Qed.

(** ** Texts *)

(** X14. For a maximal length of at least 3, [truncate_text] returns a
    text no longer than it: the text itself when it fits, and otherwise its
    first [max_length - 3] characters followed by three dots, of length
    [max_length] exactly; truncating the result again changes nothing. *)
Theorem truncate_text_fits (text : list N) (max_length : Z) :
  (3 <= max_length)%Z →
  let r := utils.truncate_text text max_length in
  (Z.of_nat (length r) <= max_length)%Z
  ∧ ((Z.of_nat (length text) <= max_length)%Z → r = text)
  ∧ ((max_length < Z.of_nat (length text))%Z →
     r = take (Z.to_nat (max_length - 3)) text ++ utils.dots
     ∧ Z.of_nat (length r) = max_length)
  ∧ utils.truncate_text r max_length = r.
Proof.
  intros Hmax r.
  assert ((Z.of_nat (length text) <= max_length)%Z → r = text) as Hfit.
  { intros Hle. subst r. unfold utils.truncate_text.
    by rewrite (proj2 (Z.leb_le _ _) Hle). }
  assert ((max_length < Z.of_nat (length text))%Z →
          r = take (Z.to_nat (max_length - 3)) text ++ utils.dots
          ∧ Z.of_nat (length r) = max_length) as Hcut.
  { intros Hlt. subst r. unfold utils.truncate_text.
    rewrite (proj2 (Z.leb_gt _ _) Hlt), slice_to_nonneg by lia.
    split; [done|]. rewrite length_app, length_take. simpl. lia. }
  assert (Z.of_nat (length r) <= max_length)%Z as Hlen.
  { destruct (Z.le_gt_cases (Z.of_nat (length text)) max_length) as [Hle|Hgt].
    - by rewrite Hfit.
    - destruct Hcut as [_ ->]; lia. }
  split; [done|]. split; [done|]. split; [done|].
  unfold utils.truncate_text at 1. by rewrite (proj2 (Z.leb_le _ _) Hlen).
Qed.

Lemma truncate_text_fits_witness :
  (Z.of_nat (length (utils.truncate_text [72; 101; 108; 108; 111; 33]%N 5))
   <= 5)%Z.
Proof.
  pose proof (truncate_text_fits [72; 101; 108; 108; 111; 33]%N 5) as H.
  lapply H; [clear H; intros H|lia].
  cbv zeta in H. destruct H as (H & _). exact H.
Defined.

Lemma truthy_length {A} (l : list A) : truthy l = negb (length l =? 0).
Proof. by destruct l. Qed.

(** X15. [validate_quest_data] accepts exactly the data whose title has 1
    to 100 characters, whose description has 1 to 2000, and whose
    requirements and reward have at most 1000 each. *)
Theorem validate_quest_data_accepts
    (title description requirements reward : list N) :
  utils.validate_quest_data title description requirements reward = None
  ↔ 1 <= length title <= 100
    ∧ 1 <= length description <= 2000
    ∧ length requirements <= 1000
    ∧ length reward <= 1000.
Proof.
  unfold utils.validate_quest_data. rewrite !truthy_length, !negb_involutive.
  destruct (Nat.eqb_spec (length title) 0),
    (Nat.eqb_spec (length description) 0),
    (Z.ltb_spec 100 (Z.of_nat (length title))),
    (Z.ltb_spec 2000 (Z.of_nat (length description))),
    (Z.ltb_spec 1000 (Z.of_nat (length requirements))),
    (Z.ltb_spec 1000 (Z.of_nat (length reward)));
    cbn [orb]; split; try discriminate; try lia; done.
Qed.

(** X20. Below a maximal length of 3 the bound of [truncate_text] does
    not hold: a text longer than the limit loses its last [3 - max_length]
    characters (all of them when it has fewer), gets three dots, and is
    longer than the limit. *)
Theorem truncate_text_below_three (text : list N) (max_length : Z) :
  (max_length < 3)%Z →
  (max_length < Z.of_nat (length text))%Z →
  let r := utils.truncate_text text max_length in
  r = take (Z.to_nat (Z.of_nat (length text) + max_length - 3)) text
        ++ utils.dots
  ∧ Z.of_nat (length r)
    = (Z.max 0 (Z.of_nat (length text) + max_length - 3) + 3)%Z
  ∧ (max_length < Z.of_nat (length r))%Z.
Proof.
  intros Hmax Hlen r.
  assert (r = take (Z.to_nat (Z.of_nat (length text) + max_length - 3)) text
                ++ utils.dots) as Hr.
  { subst r. unfold utils.truncate_text, slice_to.
    rewrite (proj2 (Z.leb_gt _ _) Hlen).
    destruct (Z.leb_spec 0 (max_length - 3)); [lia|].
    do 2 f_equal. lia. }
  split; [done|]. rewrite Hr, length_app, length_take. simpl. lia.
Qed.

Lemma truncate_text_below_three_witness :
  utils.truncate_text [72; 101; 108; 108; 111]%N 2
  = [72; 101; 108; 108; 46; 46; 46]%N.
Proof.
  pose proof (truncate_text_below_three [72; 101; 108; 108; 111]%N 2) as H.
  lapply H; [clear H; intros H|lia].
  lapply H; [clear H; intros H|simpl; lia].
  cbv zeta in H. destruct H as (H & _). exact H.
Defined.

(** ** After the decision *)

(** X16. An approved attempt does not block a new one: [accept_quest] on
    an available quest whose record for the user is an approved one, with the
    role check passing, succeeds at once and replaces the record by a fresh
    accepted one, dated by the clock and empty of proof. *)
Theorem approved_quest_can_be_taken_again (w : World) (quest_id : string)
    (user_id : Z) (user_role_ids : option (list Z))
    (accepted_channel_id : option Z) (q : Quest.t) (e : QuestProgress.t) :
  quests (database w) !! quest_id = Some q →
  Quest.status q = QuestStatus.AVAILABLE →
  quest_progress (database w) !! progress_key user_id quest_id = Some e →
  QuestProgress.status e = QuestStatus.APPROVED →
  QuestManager.lacks_required_roles q user_role_ids = false →
  let r := QuestManager.accept_quest quest_id user_id user_role_ids
             accepted_channel_id w in
  ∃ p, r.1 = (Some p, EmptyString)
    ∧ QuestProgress.status p = QuestStatus.ACCEPTED
    ∧ QuestProgress.accepted_at p = clock w (ticks w)
    ∧ QuestProgress.completed_at p = None
    ∧ QuestProgress.proof_text p = EmptyString
    ∧ QuestProgress.proof_image_urls p = []
    ∧ quest_progress (database r.2) !! progress_key user_id quest_id = Some p.
Proof.
  intros Hq Hst He Happ Hroles r. subst r.
  rewrite (accept_quest_unblocked _ _ _ _ _ q), accept_quest_tail_run, Hroles;
    [|done|done|].
  - unfold after_checks. rewrite He, Happ. simpl.
    eexists. split; [done|]. simpl. repeat split. apply lookup_insert_eq.
  - unfold unblocked. rewrite He, Happ. by repeat split.
Qed.

Lemma approved_quest_can_be_taken_again_witness :
  ∃ p,
    (QuestManager.accept_quest "q1" 5 None None
       (demo_world (demo_db [] [demo_progress 5 QuestStatus.APPROVED 0]) 9)).1
    = (Some p, EmptyString)
    ∧ QuestProgress.status p = QuestStatus.ACCEPTED.
Proof.
  pose proof (approved_quest_can_be_taken_again
    (demo_world (demo_db [] [demo_progress 5 QuestStatus.APPROVED 0]) 9)
    "q1" 5 None None (demo_quest [])
    (demo_progress 5 QuestStatus.APPROVED 0)) as H.
  do 5 (lapply H; [clear H; intros H|vm_compute; reflexivity]).
  cbv zeta in H. destruct H as (p & H1 & H2 & _).
  exists p. split; [exact H1|exact H2].
Defined.

(** ** The two halves of the store *)

Lemma update_with_progress change user_id guild_id w :
  quest_progress (database (update_with change user_id guild_id w).2)
  = quest_progress (database w).
Proof.
  unfold update_with. mrun.
  by destruct (dict_get (stats_key user_id guild_id) (user_stats (database w))).
Qed.

(** X17. The calls of the life of a quest (create, accept, complete,
    approve, delete) never change the statistics, and the three recordings
    never change the quests or the progress records. *)
Theorem lifecycle_and_statistics_are_separate (c : Call) (w : World) :
  match c with
  | RecordAccepted _ _ | RecordCompleted _ _ | RecordRejected _ _ =>
      quests (database (run_call c w)) = quests (database w)
      ∧ quest_progress (database (run_call c w)) = quest_progress (database w)
  | _ => user_stats (database (run_call c w)) = user_stats (database w)
  end.
Proof.
  destruct c; simpl.
  - by mrun.
  - destruct (QuestManager.accept_quest quest_id user_id user_role_ids
                accepted_channel_id w).1.1 as [p|] eqn:Hres.
    + by apply accept_quest_Some in Hres as (q & _ & _ & _ & _ & _ & _ & ->).
    + by rewrite accept_quest_None.
  - by destruct (complete_quest_cases w quest_id user_id proof_text
                   proof_image_urls) as [->|(p & p' & _ & _ & _ & ->)].
  - by destruct (approve_quest_cases w quest_id user_id approved)
      as [->|(p & p' & _ & _ & _ & ->)].
  - rewrite delete_quest_run. by case_bool_decide.
  - by rewrite update_quest_accepted_with, update_with_quests,
      update_with_progress.
  - by rewrite update_quest_completed_with, update_with_quests,
      update_with_progress.
  - by rewrite update_quest_rejected_with, update_with_quests,
      update_with_progress.
Qed.

(** ** The shape of the records the program writes *)






